(** * sensitive_data_processor/function_app.py: a shallow embedding

    The blob-triggered handler [analyze_sensitive_data], the log emitter
    [log_structured_data] and the analysis function [analyze_pii_phi] are
    embedded as programs of a small state-and-exception monad over the
    logging channel and the output binding.  The values the program builds
    (dicts, lists, strings, numbers) are Python values [pyval]; the objects
    the text-analytics service hands back are records with the attributes the
    program reads. *)

From Stdlib.Strings Require Import String Ascii Byte.
From Stdlib Require Import List ZArith NArith Bool Lia.
From Stdlib Require Import DecimalString.
Import ListNotations.

Set Warnings "-register-all".

Local Open Scope list_scope.
Local Open Scope string_scope.

(** ** Python values *)

(** A Python [str] is carried by its UTF-8 encoding, a Python [float] by its
    [repr] (the shortest decimal text that reads back as the same float): the
    program copies and prints scores and never computes with them. *)
Record pyfloat := PyFloat { float_repr : string }.

(** [PObject cls] is any object that is not one of the JSON-native types,
    for instance an SDK model object of class [cls]. *)
Inductive pyval :=
| PNone
| PBool (b : bool)
| PInt (z : Z)
| PFloat (f : pyfloat)
| PStr (s : string)
| PList (l : list pyval)
| PDict (d : list (string * pyval))
| PObject (cls : string).

(** A dict keeps its keys in insertion order. *)
Definition dict := list (string * pyval).

Fixpoint dict_get (k : string) (d : dict) : option pyval :=
  match d with
  | [] => None
  | (k', v) :: d' => if String.eqb k' k then Some v else dict_get k d'
  end.

(** [d[k] = v]: an existing key keeps its place, a new key goes last. *)
Fixpoint dict_set (d : dict) (k : string) (v : pyval) : dict :=
  match d with
  | [] => [(k, v)]
  | (k', v') :: d' =>
      if String.eqb k' k then (k', v) :: d' else (k', v') :: dict_set d' k v
  end.

Definition dict_keys (d : dict) : list string := map fst d.

(** [d[k].append(v)] for a key that holds a list. *)
Fixpoint dict_list_append (d : dict) (k : string) (v : pyval) : dict :=
  match d with
  | [] => []
  | (k', v') :: d' =>
      if String.eqb k' k
      then (k', match v' with PList l => PList (l ++ [v])%list | _ => v' end) :: d'
      else (k', v') :: dict_list_append d' k v
  end.

Definition opt_str (o : option string) : pyval :=
  match o with Some s => PStr s | None => PNone end.

(** ** Exceptions *)

(** An exception is its class, what [str(e)] gives, and whether the class
    derives from [Exception] (KeyboardInterrupt, SystemExit and GeneratorExit
    derive from BaseException only, and [except Exception] lets them pass). *)
Record exn := MkExn { exc_type : string; exc_str : string; is_Exception : bool }.

(** An exception of a class that derives from [Exception]. *)
Definition Exn (cls msg : string) : exn := MkExn cls msg true.

Inductive outcome (A : Type) :=
| Ok (a : A)
| Raise (e : exn).
Arguments Ok {A} a.
Arguments Raise {A} e.

Definition dquote : string := String (ascii_of_nat 34) EmptyString.
Definition newline : string := String (ascii_of_nat 10) EmptyString.

Definition UnboundLocalError (var : string) : exn :=
  Exn "UnboundLocalError"
      ("cannot access local variable '" ++ var
       ++ "' where it is not associated with a value").

Definition AttributeError (cls attr : string) : exn :=
  Exn "AttributeError"
      ("'" ++ cls ++ "' object has no attribute '" ++ attr ++ "'").

Definition TypeError_not_serializable (cls : string) : exn :=
  Exn "TypeError" ("Object of type " ++ cls ++ " is not JSON serializable").

(** ** Numbers as text *)

Definition str_of_Z (z : Z) : string := NilZero.string_of_int (Z.to_int z).
Definition str_of_nat (n : nat) : string := NilZero.string_of_uint (Nat.to_uint n).

Definition hex_digit (n : N) : ascii :=
  if (n <? 10)%N then ascii_of_N (48 + n) else ascii_of_N (87 + n).

(** [format(n, '02x')] and [format(n, '04x')] for [n] below 256 and 65536. *)
Definition hex2 (n : N) : string :=
  String (hex_digit (N.land (N.shiftr n 4) 15))
    (String (hex_digit (N.land n 15)) EmptyString).

Definition hex4 (n : N) : string :=
  hex2 (N.land (N.shiftr n 8) 255) ++ hex2 (N.land n 255).

(** ** bytes.decode('utf-8') *)

Inductive decoded :=
| Decoded (code_points : list N)
| Undecodable (start stop : nat) (bad : byte) (reason : string).

Definition is_continuation (b : byte) : bool :=
  (N.land (Byte.to_N b) 192 =? 128)%N.

Definition low6 (b : byte) : N := N.land (Byte.to_N b) 63.

Definition push (cp : N) (d : decoded) : decoded :=
  match d with
  | Decoded cps => Decoded (cp :: cps)
  | Undecodable _ _ _ _ => d
  end.

(** The strict decoder: shortest forms only, no surrogates, nothing above
    U+10FFFF.  [pos] is the index of the first byte of [bs] in the input. *)
Fixpoint utf8_decode (pos : nat) (bs : list byte) : decoded :=
  match bs with
  | [] => Decoded []
  | b0 :: t0 =>
      let c0 := Byte.to_N b0 in
      if (c0 <? 128)%N then push c0 (utf8_decode (pos + 1) t0)
      else if (c0 <? 194)%N then Undecodable pos (pos + 1) b0 "invalid start byte"
      else if (c0 <? 224)%N then
        match t0 with
        | [] => Undecodable pos (pos + 1) b0 "unexpected end of data"
        | b1 :: t1 =>
            if is_continuation b1
            then push (N.lor (N.shiftl (N.land c0 31) 6) (low6 b1))
                      (utf8_decode (pos + 2) t1)
            else Undecodable pos (pos + 1) b0 "invalid continuation byte"
        end
      else if (c0 <? 240)%N then
        match t0 with
        | [] => Undecodable pos (pos + 1) b0 "unexpected end of data"
        | b1 :: t1 =>
            let c1 := Byte.to_N b1 in
            if negb (is_continuation b1)
               || (if (c1 <? 160)%N then (c0 =? 224)%N else (c0 =? 237)%N)
            then Undecodable pos (pos + 1) b0 "invalid continuation byte"
            else
              match t1 with
              | [] => Undecodable pos (pos + 2) b0 "unexpected end of data"
              | b2 :: t2 =>
                  if is_continuation b2
                  then push (N.lor (N.shiftl (N.land c0 15) 12)
                               (N.lor (N.shiftl (low6 b1) 6) (low6 b2)))
                            (utf8_decode (pos + 3) t2)
                  else Undecodable pos (pos + 2) b0 "invalid continuation byte"
              end
        end
      else if (c0 <? 245)%N then
        match t0 with
        | [] => Undecodable pos (pos + 1) b0 "unexpected end of data"
        | b1 :: t1 =>
            let c1 := Byte.to_N b1 in
            if negb (is_continuation b1)
               || (if (c1 <? 144)%N then (c0 =? 240)%N else (c0 =? 244)%N)
            then Undecodable pos (pos + 1) b0 "invalid continuation byte"
            else
              match t1 with
              | [] => Undecodable pos (pos + 2) b0 "unexpected end of data"
              | b2 :: t2 =>
                  if negb (is_continuation b2)
                  then Undecodable pos (pos + 2) b0 "invalid continuation byte"
                  else
                    match t2 with
                    | [] => Undecodable pos (pos + 3) b0 "unexpected end of data"
                    | b3 :: t3 =>
                        if is_continuation b3
                        then push (N.lor (N.shiftl (N.land c0 7) 18)
                                     (N.lor (N.shiftl (low6 b1) 12)
                                        (N.lor (N.shiftl (low6 b2) 6) (low6 b3))))
                                  (utf8_decode (pos + 4) t3)
                        else Undecodable pos (pos + 3) b0 "invalid continuation byte"
                    end
              end
        end
      else Undecodable pos (pos + 1) b0 "invalid start byte"
  end.

Definition UnicodeDecodeError (start stop : nat) (bad : byte) (reason : string) : exn :=
  Exn "UnicodeDecodeError"
      (if Nat.eqb stop (start + 1)
       then "'utf-8' codec can't decode byte 0x" ++ hex2 (Byte.to_N bad)
            ++ " in position " ++ str_of_nat start ++ ": " ++ reason
       else "'utf-8' codec can't decode bytes in position " ++ str_of_nat start
            ++ "-" ++ str_of_nat (stop - 1) ++ ": " ++ reason).

Definition bytes_decode (bs : list byte) : outcome string :=
  match utf8_decode 0 bs with
  | Decoded _ => Ok (string_of_list_byte bs)
  | Undecodable start stop bad reason =>
      Raise (UnicodeDecodeError start stop bad reason)
  end.

(** The code points of a [str]; a byte string that is no UTF-8 text (no
    [str] has one) is read byte by byte. *)
Definition code_points (s : string) : list N :=
  let bs := list_byte_of_string s in
  match utf8_decode 0 bs with
  | Decoded cps => cps
  | Undecodable _ _ _ _ => map Byte.to_N bs
  end.

(** ** json.dumps *)

Definition chr (n : nat) : string := String (ascii_of_nat n) EmptyString.
Definition backslash : string := chr 92.

(** One character of [py_encode_basestring_ascii]: printable ASCII but the
    quote and the backslash stays, the rest is escaped. *)
Definition escape_code_point (n : N) : string :=
  if (n =? 34)%N then backslash ++ dquote
  else if (n =? 92)%N then backslash ++ backslash
  else if (n =? 8)%N then backslash ++ "b"
  else if (n =? 12)%N then backslash ++ "f"
  else if (n =? 10)%N then backslash ++ "n"
  else if (n =? 13)%N then backslash ++ "r"
  else if (n =? 9)%N then backslash ++ "t"
  else if ((32 <=? n) && (n <=? 126))%N then String (ascii_of_N n) EmptyString
  else if (n <? 65536)%N then backslash ++ "u" ++ hex4 n
  else
    let m := (n - 65536)%N in
    backslash ++ "u" ++ hex4 (N.lor 55296 (N.land (N.shiftr m 10) 1023))
    ++ backslash ++ "u" ++ hex4 (N.lor 56320 (N.land m 1023)).

Definition py_encode_basestring_ascii (s : string) : string :=
  dquote ++ String.concat EmptyString (map escape_code_point (code_points s)) ++ dquote.

Definition floatstr (f : pyfloat) : string :=
  if String.eqb (float_repr f) "nan" then "NaN"
  else if String.eqb (float_repr f) "inf" then "Infinity"
  else if String.eqb (float_repr f) "-inf" then "-Infinity"
  else float_repr f.

(** The text of a value made of JSON-native types (default separators,
    ASCII only, keys in insertion order). *)
Fixpoint json_encode (v : pyval) : string :=
  match v with
  | PNone => "null"
  | PBool true => "true"
  | PBool false => "false"
  | PInt z => str_of_Z z
  | PFloat f => floatstr f
  | PStr s => py_encode_basestring_ascii s
  | PList l => "[" ++ String.concat ", " (map json_encode l) ++ "]"
  | PDict d =>
      "{" ++ String.concat ", "
               (map (fun kv => py_encode_basestring_ascii (fst kv) ++ ": "
                               ++ json_encode (snd kv)) d) ++ "}"
  | PObject _ => EmptyString
  end.

(** The first object the encoder meets that it cannot serialize. *)
Fixpoint first_object (v : pyval) : option string :=
  match v with
  | PObject cls => Some cls
  | PList l =>
      (fix go (l : list pyval) : option string :=
         match l with
         | [] => None
         | x :: xs => match first_object x with Some c => Some c | None => go xs end
         end) l
  | PDict d =>
      (fix go (d : list (string * pyval)) : option string :=
         match d with
         | [] => None
         | kv :: d' =>
             match first_object (snd kv) with Some c => Some c | None => go d' end
         end) d
  | _ => None
  end.

Definition json_dumps (v : pyval) : outcome string :=
  match first_object v with
  | Some cls => Raise (TypeError_not_serializable cls)
  | None => Ok (json_encode v)
  end.

(** ** The logging channel, the output binding and the monad of the program *)

Inductive level := INFO | ERROR.

Record log_record := LogRecord { levelname : level; message : string }.

Record world := World { logged : list log_record; outputblob : option pyval }.

Definition M (A : Type) : Type := world -> outcome A * world.

Definition ret {A} (a : A) : M A := fun w => (Ok a, w).

Definition raise {A} (e : exn) : M A := fun w => (Raise e, w).

Definition bind {A B} (m : M A) (k : A -> M B) : M B :=
  fun w => match m w with
           | (Ok a, w') => k a w'
           | (Raise e, w') => (Raise e, w')
           end.

Notation "x <- m ;; k" := (bind m (fun x => k))
  (at level 61, m at next level, right associativity).
Notation "m ;; k" := (bind m (fun _ => k))
  (at level 61, right associativity).

Definition lift {A} (o : outcome A) : M A := fun w => (o, w).

(** [try: m  except Exception as e: handler e]: an exception whose class
    does not derive from [Exception] is not caught. *)
Definition try_except {A} (m : M A) (handler : exn -> M A) : M A :=
  fun w => match m w with
           | (Ok a, w') => (Ok a, w')
           | (Raise e, w') =>
               if is_Exception e then handler e w' else (Raise e, w')
           end.

Definition emit (w : world) (rs : list log_record) : world :=
  World (logged w ++ rs)%list (outputblob w).

Definition logging_info (msg : string) : M unit :=
  fun w => (Ok tt, emit w [LogRecord INFO msg]).

Definition logging_error (msg : string) : M unit :=
  fun w => (Ok tt, emit w [LogRecord ERROR msg]).

Definition outputblob_set (v : pyval) : M unit :=
  fun w => (Ok tt, World (logged w) (Some v)).

(** [for x in l: s = body s x], the loop state [s] being the local variables
    the body assigns. *)
Fixpoint for_each {A S} (body : S -> A -> M S) (l : list A) (s : S) : M S :=
  match l with
  | [] => ret s
  | x :: xs => s' <- body s x ;; for_each body xs s'
  end.

(** ** What the text-analytics service hands back *)

Module PiiEntity.
Record t := make {
  category : string;
  subcategory : option string;
  offset : Z;
  length : Z;
  confidence_score : pyfloat
}.
End PiiEntity.

Module HealthcareEntityDataSource.
Record t := make { entity_id : string; name : string }.
End HealthcareEntityDataSource.

Module HealthcareEntityAssertion.
Record t := make {
  conditionality : option string;
  certainty : option string;
  association : option string
}.
End HealthcareEntityAssertion.

Module HealthcareEntity.
Record t := make {
  category : string;
  subcategory : option string;
  confidence_score : pyfloat;
  data_sources : option (list HealthcareEntityDataSource.t);
  assertion : option HealthcareEntityAssertion.t;
  offset : Z;
  length : Z
}.
End HealthcareEntity.

Module HealthcareRelationRole.
Record t := make { name : string; entity : HealthcareEntity.t }.
End HealthcareRelationRole.

Module HealthcareRelation.
Record t := make {
  relation_type : string;
  confidence_score : pyfloat;
  roles : list HealthcareRelationRole.t
}.
End HealthcareRelation.

Module TextAnalyticsError.
Record t := make { code : string; message : string }.
End TextAnalyticsError.

(** One item of the result sequence.  The first two are the results of the
    two requested actions; [OtherResult] is any other object, told apart by
    its [kind] string only, such as the SDK's [DocumentError] (kind
    DocumentError, [is_error] true), whose [error] may be [None].  [warnings]
    are handed to the log as they come. *)
Inductive result :=
| RecognizePiiEntitiesResult
    (redacted_text : string) (entities : list PiiEntity.t)
    (warnings : list pyval) (is_error : bool)
| AnalyzeHealthcareEntitiesResult
    (entities : list HealthcareEntity.t)
    (entity_relations : list HealthcareRelation.t)
    (warnings : list pyval) (is_error : bool)
| OtherResult (kind : string) (is_error : bool)
    (error : option TextAnalyticsError.t).

Definition kind (r : result) : string :=
  match r with
  | RecognizePiiEntitiesResult _ _ _ _ => "PiiEntityRecognition"
  | AnalyzeHealthcareEntitiesResult _ _ _ _ => "Healthcare"
  | OtherResult k _ _ => k
  end.

Definition is_error (r : result) : bool :=
  match r with
  | RecognizePiiEntitiesResult _ _ _ e => e
  | AnalyzeHealthcareEntitiesResult _ _ _ e => e
  | OtherResult _ e _ => e
  end.

(** The invocation's surroundings: the value [str(uuid.uuid4())] takes, and
    what [begin_analyze_actions(documents, ...)] followed by [poller.result()]
    gives for the submitted documents, the result sequence or the exception
    one of the two calls raises. *)
Record environment := Environment {
  uuid4 : string;
  text_analytics_client : list string -> outcome (list (list result))
}.

Record InputStream := Blob { blob_name : string; blob_content : list byte }.

(** ** The program *)

(** lines 44-52 *)
Definition log_structured_data (message : string) (custom_dimensions errors : pyval)
  : M unit :=
  let log_entry :=
    PDict [ ("analysis_type", PStr message);
            ("documents", custom_dimensions);
            ("errors", errors);
            ("modelVersion", PStr "2023-09-01") ] in
  line <- lift (json_dumps log_entry) ;;
  logging_info line.

(** lines 77-83 *)
Definition pii_entity_record (entity : PiiEntity.t) : pyval :=
  PDict [ ("category", PStr (PiiEntity.category entity));
          ("subcategory", opt_str (PiiEntity.subcategory entity));
          ("offset", PInt (PiiEntity.offset entity));
          ("length", PInt (PiiEntity.length entity));
          ("confidence_score", PFloat (PiiEntity.confidence_score entity)) ].

(** lines 100-123: the dict is created with an empty [data_sources], which
    the loop over the sources appends to, and [assertion] is set last. *)
Definition healthcare_entity_record (entity : HealthcareEntity.t) : dict :=
  let healthcare_entity :=
    [ ("category", PStr (HealthcareEntity.category entity));
      ("subcategory", opt_str (HealthcareEntity.subcategory entity));
      ("confidence_score", PFloat (HealthcareEntity.confidence_score entity));
      ("data_sources", PList []);
      ("offset", PInt (HealthcareEntity.offset entity));
      ("length", PInt (HealthcareEntity.length entity)) ] in
  let healthcare_entity :=
    match HealthcareEntity.data_sources entity with
    | Some ((_ :: _) as sources) =>
        fold_left
          (fun d source =>
             dict_list_append d "data_sources"
               (PDict [ ("entity_id", PStr (HealthcareEntityDataSource.entity_id source));
                        ("name", PStr (HealthcareEntityDataSource.name source)) ]))
          sources healthcare_entity
    | _ => healthcare_entity
    end in
  match HealthcareEntity.assertion entity with
  | Some assertion =>
      dict_set healthcare_entity "assertion"
        (PDict [ ("conditionality", opt_str (HealthcareEntityAssertion.conditionality assertion));
                 ("certainty", opt_str (HealthcareEntityAssertion.certainty assertion));
                 ("association", opt_str (HealthcareEntityAssertion.association assertion)) ])
  | None => healthcare_entity
  end.

(** lines 98-125 *)
Definition healthcare_entities_of (entities : list HealthcareEntity.t) : list pyval :=
  fold_left
    (fun healthcare_entities entity =>
       (healthcare_entities ++ [PDict (healthcare_entity_record entity)])%list)
    entities [].

(** lines 131-143 *)
Definition relation_info (relation : HealthcareRelation.t) : pyval :=
  let entities :=
    fold_left
      (fun entities role =>
         (entities ++ [PDict [("role", PStr (HealthcareRelationRole.name role))]])%list)
      (HealthcareRelation.roles relation) [] in
  PDict [ ("confidenceScore", PFloat (HealthcareRelation.confidence_score relation));
          ("relationType", PStr (HealthcareRelation.relation_type relation));
          ("entities", PList entities) ].

(** lines 128-143 *)
Definition relations_of (entity_relations : list HealthcareRelation.t) : list pyval :=
  fold_left
    (fun relations relation => (relations ++ [relation_info relation])%list)
    entity_relations [].

(** lines 74-160, the body of the inner loop; the loop state is the local
    variable [document_redacted_text], [None] while it is unbound. *)
Definition process_result (document_id : string)
    (document_redacted_text : option string) (result : result)
  : M (option string) :=
  if String.eqb (kind result) "PiiEntityRecognition" then
    match result with
    | RecognizePiiEntitiesResult redacted_text entities warnings is_error =>
        let document_redacted_text := Some redacted_text in
        let pii_entities := map pii_entity_record entities in
        log_structured_data "PII"
          (PDict [ ("id", PStr document_id);
                   ("entities", PList pii_entities);
                   ("warnings", PList warnings) ])
          (PBool is_error) ;;
        ret document_redacted_text
    | _ => raise (AttributeError (kind result) "redacted_text")
    end
  else if String.eqb (kind result) "Healthcare" then
    match result with
    | AnalyzeHealthcareEntitiesResult entities entity_relations warnings is_error =>
        let healthcare_entities := healthcare_entities_of entities in
        let relations := relations_of entity_relations in
        log_structured_data "PHI"
          (PDict [ ("id", PStr document_id);
                   ("entities", PList healthcare_entities);
                   ("relations", PList relations);
                   ("warnings", PList warnings) ])
          (PBool is_error) ;;
        ret document_redacted_text
    | _ => raise (AttributeError (kind result) "entities")
    end
  else if is_error result then
    match result with
    | OtherResult _ _ (Some error) =>
        logging_error
          ("...Is an error with code '" ++ TextAnalyticsError.code error
           ++ "' and message '" ++ TextAnalyticsError.message error ++ "'") ;;
        ret document_redacted_text
    | _ => raise (AttributeError "NoneType" "code")
    end
  else ret document_redacted_text.

(** lines 72-162: the two loops and the [return]. *)
Definition classify_results (document_id : string)
    (document_results : list (list result)) : M pyval :=
  document_redacted_text <-
    for_each
      (fun document_redacted_text action_results =>
         for_each (process_result document_id) action_results document_redacted_text)
      document_results None ;;
  match document_redacted_text with
  | Some text => ret (PStr text)
  | None => raise (UnboundLocalError "document_redacted_text")
  end.

Definition failure_payload (msg : string) : pyval :=
  PDict [ ("error", PStr msg); ("status", PStr "failed") ].

(** lines 57-162, the body of the [try]. *)
Definition analysis_body (env : environment) (documents : list string)
    (document_id : string) : M pyval :=
  document_results <- lift (text_analytics_client env documents) ;;
  classify_results document_id document_results.

(** lines 54-169 *)
Definition analyze_pii_phi (env : environment) (documents : list string)
    (document_id : string) : M pyval :=
  try_except
    (analysis_body env documents document_id)
    (fun e =>
       logging_error ("Error analyzing document: " ++ exc_str e) ;;
       ret (failure_payload (exc_str e))).

(** lines 29-42 *)
Definition analyze_sensitive_data (env : environment) (myblob : InputStream)
  : M unit :=
  let document_id := uuid4 env in
  logging_info ("Starting analysis for document: " ++ blob_name myblob
                ++ " with document ID: " ++ document_id ++ newline) ;;
  text <- lift (bytes_decode (blob_content myblob)) ;;
  let document := [text] in
  analysis_results <- analyze_pii_phi env document document_id ;;
  outputblob_set analysis_results ;;
  logging_info ("Analysis completed for: " ++ blob_name myblob
                ++ " with process ID: " ++ document_id ++ newline).

Definition start : world := World [] None.

(** ** What the claims speak of *)

(** The dict the emitter serializes (the local [log_entry] of lines 46-51). *)
Definition log_entry (message : string) (custom_dimensions errors : pyval) : pyval :=
  PDict [ ("analysis_type", PStr message);
          ("documents", custom_dimensions);
          ("errors", errors);
          ("modelVersion", PStr "2023-09-01") ].

Definition serializable (v : pyval) : bool :=
  match first_object v with None => true | Some _ => false end.

(** The redacted texts of the PII results of a sequence, in iteration order. *)
Definition redacted_texts (items : list result) : list string :=
  flat_map (fun r => match r with
                     | RecognizePiiEntitiesResult text _ _ _ => [text]
                     | _ => []
                     end) items.

(** A PII result the emitter can log: its warnings hold JSON values only. *)
Definition valid_pii_result (r : result) : bool :=
  match r with
  | RecognizePiiEntitiesResult _ _ warnings _ => serializable (PList warnings)
  | _ => false
  end.

(** The record a PII result is logged as. *)
Definition pii_log_record (document_id : string) (r : result) : log_record :=
  match r with
  | RecognizePiiEntitiesResult _ entities warnings is_error =>
      LogRecord INFO
        (json_encode
           (log_entry "PII"
              (PDict [ ("id", PStr document_id);
                       ("entities", PList (map pii_entity_record entities));
                       ("warnings", PList warnings) ])
              (PBool is_error)))
  | _ => LogRecord INFO EmptyString
  end.

Definition error_log_record (error : TextAnalyticsError.t) : log_record :=
  LogRecord ERROR
    ("...Is an error with code '" ++ TextAnalyticsError.code error
     ++ "' and message '" ++ TextAnalyticsError.message error ++ "'").

(** The item is a PII or healthcare result whose warnings hold an object of
    class [cls] that json.dumps cannot serialize (and none before it). *)
Definition unserializable_item (r : result) (cls : string) : Prop :=
  match r with
  | RecognizePiiEntitiesResult _ _ warnings _ => first_object (PList warnings) = Some cls
  | AnalyzeHealthcareEntitiesResult _ _ warnings _ => first_object (PList warnings) = Some cls
  | OtherResult _ _ _ => False
  end.

(** No exception leaves the program [m] started in [w]. *)
Definition raises_nothing {A} (m : M A) (w : world) : Prop :=
  exists a, fst (m w) = Ok a.

(** The records [m] adds to the log when started in [w]. *)
Definition emitted {A} (m : M A) (w : world) : list log_record :=
  skipn (List.length (logged w)) (logged (snd (m w))).

(** Projections as the specification words them. *)
Definition data_source_record (source : HealthcareEntityDataSource.t) : pyval :=
  PDict [ ("entity_id", PStr (HealthcareEntityDataSource.entity_id source));
          ("name", PStr (HealthcareEntityDataSource.name source)) ].

Definition assertion_record (assertion : HealthcareEntityAssertion.t) : pyval :=
  PDict [ ("conditionality", opt_str (HealthcareEntityAssertion.conditionality assertion));
          ("certainty", opt_str (HealthcareEntityAssertion.certainty assertion));
          ("association", opt_str (HealthcareEntityAssertion.association assertion)) ].

Definition role_record (role : HealthcareRelationRole.t) : pyval :=
  PDict [ ("role", PStr (HealthcareRelationRole.name role)) ].

Definition sources_or_empty (o : option (list HealthcareEntityDataSource.t))
  : list HealthcareEntityDataSource.t :=
  match o with Some l => l | None => [] end.

(** The record a healthcare result is logged as. *)
Definition phi_log_record (document_id : string) (r : result) : log_record :=
  match r with
  | AnalyzeHealthcareEntitiesResult entities entity_relations warnings is_error =>
      LogRecord INFO
        (json_encode
           (log_entry "PHI"
              (PDict [ ("id", PStr document_id);
                       ("entities", PList (healthcare_entities_of entities));
                       ("relations", PList (relations_of entity_relations));
                       ("warnings", PList warnings) ])
              (PBool is_error)))
  | _ => LogRecord INFO EmptyString
  end.

(** [m] ends with [r] and adds exactly the records [e] to the log, whatever
    the world it starts in. *)
Definition runs {A} (m : M A) (r : outcome A) (e : list log_record) : Prop :=
  forall w, m w = (r, emit w e).

(** [m] touches nothing but the log, where it adds records that satisfy [P]. *)
Definition logs_only {A} (P : log_record -> Prop) (m : M A) : Prop :=
  exists r e, Forall P e /\ runs m r e.

(** A record of the analysis function: an error line, or the serialized
    entry of one analysis type with the schema version and the document id. *)
Definition analysis_record (document_id : string) (r : log_record) : Prop :=
  levelname r = ERROR \/
  exists analysis_type rest errors,
    message r =
      json_encode
        (log_entry analysis_type (PDict (("id", PStr document_id) :: rest)) errors).

(** The variable after a loop over items with the redacted [texts], [v]
    being its value before. *)
Definition latest (v : option string) (texts : list string) : option string :=
  match texts with
  | [] => v
  | _ :: _ => Some (last texts EmptyString)
  end.

(** The tail every serialized entry ends with. *)
Definition version_suffix : string :=
  ", " ++ dquote ++ "modelVersion" ++ dquote ++ ": "
  ++ dquote ++ "2023-09-01" ++ dquote ++ "}".

(** An item the loop body handles without raising. *)
Definition processable (r : result) : bool :=
  match r with
  | RecognizePiiEntitiesResult _ _ warnings _ => serializable (PList warnings)
  | AnalyzeHealthcareEntitiesResult _ _ warnings _ => serializable (PList warnings)
  | OtherResult k e error =>
      negb (String.eqb k "PiiEntityRecognition")
      && negb (String.eqb k "Healthcare")
      && (negb e || match error with Some _ => true | None => false end)
  end.

(** The records an item is logged as. *)
Definition records_of (document_id : string) (r : result) : list log_record :=
  match r with
  | RecognizePiiEntitiesResult _ _ _ _ => [pii_log_record document_id r]
  | AnalyzeHealthcareEntitiesResult _ _ _ _ => [phi_log_record document_id r]
  | OtherResult _ true (Some error) => [error_log_record error]
  | OtherResult _ _ _ => []
  end.

(** ** Sample responses *)

Module Sample.

(** The fabricated response of the round-trip property. *)
Definition name_entity : PiiEntity.t :=
  PiiEntity.make "Name" None 0 4 (PyFloat "0.9").

Definition phone_entity : PiiEntity.t :=
  PiiEntity.make "Phone" None 10 8 (PyFloat "0.95").

Definition pii : result :=
  RecognizePiiEntitiesResult "**** is at **** now" [name_entity; phone_entity] [] false.

Definition other_pii : result :=
  RecognizePiiEntitiesResult "second document" [] [] false.

Definition dosage : HealthcareEntity.t :=
  HealthcareEntity.make "Dosage" None (PyFloat "1.0")
    (Some [ HealthcareEntityDataSource.make "C0178602" "UMLS" ])
    (Some (HealthcareEntityAssertion.make None (Some "negative") None))
    3 5.

Definition medication : HealthcareEntity.t :=
  HealthcareEntity.make "MedicationName" None (PyFloat "0.99") None None 12 9.

Definition dosage_of : HealthcareRelation.t :=
  HealthcareRelation.make "DosageOfMedication" (PyFloat "0.8")
    [ HealthcareRelationRole.make "Dosage" dosage;
      HealthcareRelationRole.make "Medication" medication ].

Definition healthcare : result :=
  AnalyzeHealthcareEntitiesResult [dosage; medication] [dosage_of] [] false.

Definition empty_healthcare : result :=
  AnalyzeHealthcareEntitiesResult [] [] [] false.

Definition invalid_document : TextAnalyticsError.t :=
  TextAnalyticsError.make "InvalidDocument" "Document text is empty.".

Definition document_error : result :=
  OtherResult "DocumentError" true (Some invalid_document).

(** A PII result that carries a warning, an SDK object. *)
Definition pii_with_warning : result :=
  RecognizePiiEntitiesResult "**** called" [name_entity]
    [PObject "TextAnalyticsWarning"] false.

Definition correlation_id : string := "3f2b8c1e-0d4a-4c57-9b1a-6e2f4d7a9c10".

Definition responding (rs : list (list result)) : environment :=
  Environment correlation_id (fun _ => Ok rs).

Definition not_utf8 : InputStream := Blob "note.txt" [xff].

Definition hello : InputStream := Blob "note.txt" [x68; x69].

End Sample.

(** ** The whole behaviour, as list functions *)

(** The kind of an object of the SDK names its class: an object that is
    neither of the two results does not carry one of their kinds. *)
Definition kind_tagged (r : result) : bool :=
  match r with
  | OtherResult k _ _ =>
      negb (String.eqb k "PiiEntityRecognition") && negb (String.eqb k "Healthcare")
  | _ => true
  end.

(** The exception the loop body raises on such an item, if it raises one:
    that of json.dumps on the warnings of a PII or healthcare result, that of
    [result.error.code] on an error object whose [error] is [None]. *)
Definition item_error (r : result) : option exn :=
  match r with
  | RecognizePiiEntitiesResult _ _ warnings _ =>
      option_map TypeError_not_serializable (first_object (PList warnings))
  | AnalyzeHealthcareEntitiesResult _ _ warnings _ =>
      option_map TypeError_not_serializable (first_object (PList warnings))
  | OtherResult _ true None => Some (AttributeError "NoneType" "code")
  | OtherResult _ _ _ => None
  end.

Fixpoint take_while {A} (p : A -> bool) (l : list A) : list A :=
  match l with
  | [] => []
  | x :: xs => if p x then x :: take_while p xs else []
  end.

(** The exception that ends the loop over [items], if one does. *)
Definition raised_by (items : list result) : option exn :=
  match find (fun r => negb (processable r)) items with
  | Some r => item_error r
  | None => None
  end.

Definition error_line (x : exn) : log_record :=
  LogRecord ERROR ("Error analyzing document: " ++ exc_str x).

(** What the analysis function returns and logs for the items of a
    response. *)
Definition analysis_of (document_id : string) (items : list result)
  : outcome pyval * list log_record :=
  let records := flat_map (records_of document_id) (take_while processable items) in
  match raised_by items with
  | Some x => (Ok (failure_payload (exc_str x)), (records ++ [error_line x])%list)
  | None =>
      match redacted_texts items with
      | [] =>
          (Ok (failure_payload (exc_str (UnboundLocalError "document_redacted_text"))),
           (records ++ [error_line (UnboundLocalError "document_redacted_text")])%list)
      | (_ :: _) as texts => (Ok (PStr (last texts EmptyString)), records)
      end
  end.

(** The same for what the service call gives: its exception is turned into
    the failure payload when it is an [Exception], and raised on otherwise. *)
Definition analysis_of_response (document_id : string)
    (response : outcome (list (list result))) : outcome pyval * list log_record :=
  match response with
  | Raise x =>
      if is_Exception x
      then (Ok (failure_payload (exc_str x)), [error_line x])
      else (Raise x, [])
  | Ok rs => analysis_of document_id (concat rs)
  end.

Definition tagged_response (response : outcome (list (list result))) : bool :=
  match response with
  | Ok rs => forallb kind_tagged (concat rs)
  | Raise _ => true
  end.

(** An item of a kind the loop does not know that signals no error. *)
Definition unrecognized (r : result) : bool :=
  match r with
  | OtherResult k false _ =>
      negb (String.eqb k "PiiEntityRecognition") && negb (String.eqb k "Healthcare")
  | _ => false
  end.

(** The two lines of the handler. *)
Definition starting_line (env : environment) (myblob : InputStream) : log_record :=
  LogRecord INFO
    ("Starting analysis for document: " ++ blob_name myblob
     ++ " with document ID: " ++ uuid4 env ++ newline).

Definition completed_line (env : environment) (myblob : InputStream) : log_record :=
  LogRecord INFO
    ("Analysis completed for: " ++ blob_name myblob
     ++ " with process ID: " ++ uuid4 env ++ newline).

Definition ascii_only (bs : list byte) : bool :=
  forallb (fun b => (Byte.to_N b <? 128)%N) bs.

(** What the handler does on a blob that decodes, from what the analysis
    function does: it sets the output binding and logs its closing line only
    when the analysis returns. *)
Definition handler_result (env : environment) (myblob : InputStream) (w : world)
    (analysis : outcome pyval * list log_record) : outcome unit * world :=
  match fst analysis with
  | Ok value =>
      (Ok tt,
       World (logged w ++ [starting_line env myblob] ++ snd analysis
              ++ [completed_line env myblob])%list
             (Some value))
  | Raise x =>
      (Raise x,
       World (logged w ++ [starting_line env myblob] ++ snd analysis)%list
             (outputblob w))
  end.

Module MoreSamples.

Definition unknown_kind : result := OtherResult "SentimentAnalysis" false None.

(** An error object that carries no error information. *)
Definition bare_error : result := OtherResult "DocumentError" true None.

Definition interrupted : environment :=
  Environment Sample.correlation_id
    (fun _ => Raise (MkExn "KeyboardInterrupt" EmptyString false)).

Definition rejecting : environment :=
  Environment Sample.correlation_id
    (fun _ => Raise (Exn "HttpResponseError" "(401) Access denied")).

End MoreSamples.

(** * Properties *)

(** ** Programs that only append to the log *)

Lemma emit_nil (w : world) : emit w [] = w.
Proof. destruct w; unfold emit; simpl. now rewrite app_nil_r. Qed.

Lemma emit_app (w : world) (a b : list log_record) :
  emit (emit w a) b = emit w (a ++ b).
Proof. unfold emit; simpl. now rewrite app_assoc. Qed.

Lemma runs_ret {A} (a : A) : runs (ret a) (Ok a) [].
Proof. intros w. unfold ret. now rewrite emit_nil. Qed.

Lemma runs_raise {A} (e : exn) : runs (@raise A e) (Raise e) [].
Proof. intros w. unfold raise. now rewrite emit_nil. Qed.

Lemma runs_lift {A} (o : outcome A) : runs (lift o) o [].
Proof. intros w. unfold lift. now rewrite emit_nil. Qed.

Lemma runs_logging_info (msg : string) :
  runs (logging_info msg) (Ok tt) [LogRecord INFO msg].
Proof. now intros w. Qed.

Lemma runs_logging_error (msg : string) :
  runs (logging_error msg) (Ok tt) [LogRecord ERROR msg].
Proof. now intros w. Qed.

Lemma runs_bind_ok {A B} (m : M A) (k : A -> M B) a e1 r e2 :
  runs m (Ok a) e1 -> runs (k a) r e2 -> runs (bind m k) r (e1 ++ e2).
Proof.
  intros Hm Hk w. unfold bind. rewrite Hm, Hk. now rewrite emit_app.
Qed.

Lemma runs_bind_raise {A B} (m : M A) (k : A -> M B) x e :
  runs m (Raise x) e -> runs (bind m k) (Raise x) e.
Proof. intros Hm w. unfold bind. now rewrite Hm. Qed.

Lemma runs_try_ok {A} (m : M A) (h : exn -> M A) a e :
  runs m (Ok a) e -> runs (try_except m h) (Ok a) e.
Proof. intros Hm w. unfold try_except. now rewrite Hm. Qed.

Lemma runs_try_raise {A} (m : M A) (h : exn -> M A) x e1 r e2 :
  is_Exception x = true ->
  runs m (Raise x) e1 -> runs (h x) r e2 -> runs (try_except m h) r (e1 ++ e2).
Proof.
  intros Hx Hm Hh w. unfold try_except. rewrite Hm, Hx, Hh. now rewrite emit_app.
Qed.

Lemma runs_try_pass {A} (m : M A) (h : exn -> M A) x e :
  is_Exception x = false ->
  runs m (Raise x) e -> runs (try_except m h) (Raise x) e.
Proof. intros Hx Hm w. unfold try_except. now rewrite Hm, Hx. Qed.

(** What a program does in one world tells what it does in all. *)
Lemma runs_at {A} (m : M A) r e w r' w' :
  runs m r e -> m w = (r', w') -> r' = r /\ w' = emit w e.
Proof. intros Hm Hw. rewrite Hm in Hw. now inversion Hw. Qed.

Lemma runs_emitted {A} (m : M A) r e w :
  runs m r e -> fst (m w) = r /\ emitted m w = e.
Proof.
  intros Hm. unfold emitted. rewrite Hm. simpl. split; [reflexivity|].
  induction (logged w) as [|x l IH]; simpl; auto.
Qed.

Lemma logs_only_ret {A} P (a : A) : logs_only P (ret a).
Proof. exists (Ok a), []. split; [constructor | apply runs_ret]. Qed.

Lemma logs_only_raise {A} P (e : exn) : logs_only P (@raise A e).
Proof. exists (Raise e), []. split; [constructor | apply runs_raise]. Qed.

Lemma logs_only_lift {A} P (o : outcome A) : logs_only P (lift o).
Proof. exists o, []. split; [constructor | apply runs_lift]. Qed.

Lemma logs_only_info (P : log_record -> Prop) msg :
  P (LogRecord INFO msg) -> logs_only P (logging_info msg).
Proof.
  intros H. exists (Ok tt), [LogRecord INFO msg].
  split; [now repeat constructor | apply runs_logging_info].
Qed.

Lemma logs_only_error (P : log_record -> Prop) msg :
  P (LogRecord ERROR msg) -> logs_only P (logging_error msg).
Proof.
  intros H. exists (Ok tt), [LogRecord ERROR msg].
  split; [now repeat constructor | apply runs_logging_error].
Qed.

Lemma logs_only_bind {A B} P (m : M A) (k : A -> M B) :
  logs_only P m -> (forall a, logs_only P (k a)) -> logs_only P (bind m k).
Proof.
  intros (r & e & HP & Hm) Hk. destruct r as [a|x].
  - destruct (Hk a) as (r' & e' & HP' & Hk').
    exists r', (e ++ e')%list. split.
    + apply Forall_app; auto.
    + eapply runs_bind_ok; eauto.
  - exists (Raise x), e. split; [assumption | now apply runs_bind_raise].
Qed.

Lemma logs_only_try {A} P (m : M A) (h : exn -> M A) :
  logs_only P m -> (forall x, logs_only P (h x)) -> logs_only P (try_except m h).
Proof.
  intros (r & e & HP & Hm) Hh. destruct r as [a|x].
  - exists (Ok a), e. split; [assumption | now apply runs_try_ok].
  - destruct (is_Exception x) eqn:Hx.
    + destruct (Hh x) as (r' & e' & HP' & Hh').
      exists r', (e ++ e')%list. split.
      * apply Forall_app; auto.
      * eapply runs_try_raise; eauto.
    + exists (Raise x), e. split; [assumption | now apply runs_try_pass].
Qed.

Lemma logs_only_for_each {A S} P (body : S -> A -> M S) (l : list A) :
  (forall s x, logs_only P (body s x)) -> forall s, logs_only P (for_each body l s).
Proof.
  intros Hbody. induction l as [|x xs IH]; intros s; simpl.
  - apply logs_only_ret.
  - apply logs_only_bind; auto.
Qed.

(** ** The two loops are one loop over the flattened sequence *)

Lemma for_each_app {A S} (body : S -> A -> M S) (l1 l2 : list A) s w :
  for_each body (l1 ++ l2) s w
  = bind (for_each body l1 s) (fun s' => for_each body l2 s') w.
Proof.
  revert s w. induction l1 as [|x xs IH]; intros s w; simpl.
  - reflexivity.
  - unfold bind in *. destruct (body s x w) as [[s'|e] w']; [apply IH | reflexivity].
Qed.

Lemma for_each_concat {A S} (body : S -> A -> M S) (ls : list (list A)) s w :
  for_each (fun s l => for_each body l s) ls s w = for_each body (concat ls) s w.
Proof.
  revert s w. induction ls as [|l ls IH]; intros s w; simpl.
  - reflexivity.
  - rewrite for_each_app. unfold bind.
    destruct (for_each body l s w) as [[s'|e] w']; [apply IH | reflexivity].
Qed.

(** ** The decoder and the serializer on small inputs *)

Example decode_ascii : bytes_decode [x68; x69] = Ok "hi".
Proof. reflexivity. Qed.

Example decode_two_byte_sequence :
  utf8_decode 0 [x68; xc3; xa9] = Decoded [104; 233]%N.
Proof. reflexivity. Qed.

Example decode_four_byte_sequence :
  utf8_decode 0 [xf0; x9f; x98; x80] = Decoded [128512]%N.
Proof. reflexivity. Qed.

Example decode_overlong_form :
  utf8_decode 0 [xc0; x80] = Undecodable 0 1 xc0 "invalid start byte".
Proof. reflexivity. Qed.

Example decode_surrogate :
  utf8_decode 0 [xed; xa0; x80] = Undecodable 0 1 xed "invalid continuation byte".
Proof. reflexivity. Qed.

Example decode_truncated :
  exc_str (UnicodeDecodeError 2 4 xe2 "unexpected end of data")
  = "'utf-8' codec can't decode bytes in position 2-3: unexpected end of data"
  /\ utf8_decode 0 [x68; x69; xe2; x82]
     = Undecodable 2 4 xe2 "unexpected end of data".
Proof. split; reflexivity. Qed.

Example dumps_numbers_and_constants :
  json_dumps (PList [PInt 0; PInt (-12); PFloat (PyFloat "0.95"); PNone; PBool true])
  = Ok "[0, -12, 0.95, null, true]".
Proof. reflexivity. Qed.

Example dumps_escapes :
  json_dumps (PStr (string_of_list_byte [x68; xc3; xa9; x0a; xf0; x9f; x98; x80]))
  = Ok (dquote ++ "h" ++ backslash ++ "u00e9" ++ backslash ++ "n"
        ++ backslash ++ "ud83d" ++ backslash ++ "ude00" ++ dquote).
Proof. reflexivity. Qed.

Example dumps_dict :
  json_dumps (PDict [("offset", PInt 3); ("tags", PList [])])
  = Ok ("{" ++ dquote ++ "offset" ++ dquote ++ ": 3, "
        ++ dquote ++ "tags" ++ dquote ++ ": []}").
Proof. reflexivity. Qed.

Example dumps_object :
  json_dumps (PDict [("warnings", PList [PInt 1; PObject "TextAnalyticsWarning"])])
  = Raise (Exn "TypeError"
             "Object of type TextAnalyticsWarning is not JSON serializable").
Proof. reflexivity. Qed.

(** ** Entity projection *)

Lemma fold_left_snoc {A B} (f : A -> B) (l : list A) (acc : list B) :
  fold_left (fun acc x => (acc ++ [f x])%list) l acc = (acc ++ map f l)%list.
Proof.
  revert acc. induction l as [|x xs IH]; intros acc; simpl.
  - now rewrite app_nil_r.
  - rewrite IH, <- app_assoc. reflexivity.
Qed.

Lemma healthcare_entities_of_map (entities : list HealthcareEntity.t) :
  healthcare_entities_of entities
  = map (fun entity => PDict (healthcare_entity_record entity)) entities.
Proof. unfold healthcare_entities_of. now rewrite fold_left_snoc. Qed.

Lemma relation_info_eq (relation : HealthcareRelation.t) :
  relation_info relation
  = PDict [ ("confidenceScore", PFloat (HealthcareRelation.confidence_score relation));
            ("relationType", PStr (HealthcareRelation.relation_type relation));
            ("entities", PList (map role_record (HealthcareRelation.roles relation))) ].
Proof. unfold relation_info. now rewrite (fold_left_snoc role_record). Qed.

Lemma relations_of_map (entity_relations : list HealthcareRelation.t) :
  relations_of entity_relations = map relation_info entity_relations.
Proof. unfold relations_of. now rewrite fold_left_snoc. Qed.

(** The loop over the data sources fills the list the dict was created with. *)
Lemma append_data_sources (sources : list HealthcareEntityDataSource.t) :
  forall (l : list pyval) (c s f o n : pyval),
    fold_left
      (fun d source =>
         dict_list_append d "data_sources"
           (PDict [ ("entity_id", PStr (HealthcareEntityDataSource.entity_id source));
                    ("name", PStr (HealthcareEntityDataSource.name source)) ]))
      sources
      [ ("category", c); ("subcategory", s); ("confidence_score", f);
        ("data_sources", PList l); ("offset", o); ("length", n) ]
    = [ ("category", c); ("subcategory", s); ("confidence_score", f);
        ("data_sources", PList (l ++ map data_source_record sources));
        ("offset", o); ("length", n) ].
Proof.
  induction sources as [|x xs IH]; intros l c s f o n; simpl.
  - now rewrite app_nil_r.
  - rewrite IH, <- app_assoc. reflexivity.
Qed.

Lemma healthcare_entity_record_eq (entity : HealthcareEntity.t) :
  healthcare_entity_record entity
  = ([ ("category", PStr (HealthcareEntity.category entity));
       ("subcategory", opt_str (HealthcareEntity.subcategory entity));
       ("confidence_score", PFloat (HealthcareEntity.confidence_score entity));
       ("data_sources",
        PList (map data_source_record
                 (sources_or_empty (HealthcareEntity.data_sources entity))));
       ("offset", PInt (HealthcareEntity.offset entity));
       ("length", PInt (HealthcareEntity.length entity)) ]
     ++ match HealthcareEntity.assertion entity with
        | Some assertion => [("assertion", assertion_record assertion)]
        | None => []
        end)%list.
Proof.
  unfold healthcare_entity_record.
  destruct (HealthcareEntity.data_sources entity) as [[|x xs]|];
    destruct (HealthcareEntity.assertion entity) as [a|];
    try reflexivity;
    rewrite append_data_sources; reflexivity.
Qed.

(** ** What json.dumps accepts *)

Lemma first_object_cons (x : pyval) (xs : list pyval) :
  first_object (PList (x :: xs))
  = match first_object x with
    | Some c => Some c
    | None => first_object (PList xs)
    end.
Proof. reflexivity. Qed.

Lemma first_object_map_none {A} (f : A -> pyval) (l : list A) :
  (forall x, first_object (f x) = None) -> first_object (PList (map f l)) = None.
Proof.
  intros Hf. induction l as [|x xs IH]; [reflexivity|].
  simpl map. rewrite first_object_cons, Hf. exact IH.
Qed.

Lemma first_object_opt_str (o : option string) : first_object (opt_str o) = None.
Proof. now destruct o. Qed.

Lemma first_object_pii_entity (entity : PiiEntity.t) :
  first_object (pii_entity_record entity) = None.
Proof. unfold pii_entity_record. simpl. now rewrite first_object_opt_str. Qed.

Lemma first_object_data_source (source : HealthcareEntityDataSource.t) :
  first_object (data_source_record source) = None.
Proof. reflexivity. Qed.

Lemma first_object_assertion (assertion : HealthcareEntityAssertion.t) :
  first_object (assertion_record assertion) = None.
Proof.
  unfold assertion_record. simpl. now rewrite !first_object_opt_str.
Qed.

Lemma first_object_healthcare_entity (entity : HealthcareEntity.t) :
  first_object (PDict (healthcare_entity_record entity)) = None.
Proof.
  rewrite healthcare_entity_record_eq.
  pose proof (first_object_map_none data_source_record
                (sources_or_empty (HealthcareEntity.data_sources entity))
                first_object_data_source) as Hs.
  destruct (HealthcareEntity.assertion entity) as [a|]; simpl in *;
    rewrite first_object_opt_str, Hs; [|reflexivity].
  pose proof (first_object_assertion a) as Ha. simpl in Ha. now rewrite Ha.
Qed.

Lemma first_object_relation (relation : HealthcareRelation.t) :
  first_object (relation_info relation) = None.
Proof.
  rewrite relation_info_eq.
  pose proof (first_object_map_none role_record (HealthcareRelation.roles relation)
                (fun _ => eq_refl)) as Hr.
  simpl in *. now rewrite Hr.
Qed.

(** The entry of a PII or healthcare result fails to serialize exactly where
    its warnings do. *)
Lemma first_object_pii_entry document_id entities warnings is_error :
  first_object
    (log_entry "PII"
       (PDict [ ("id", PStr document_id);
                ("entities", PList (map pii_entity_record entities));
                ("warnings", PList warnings) ])
       (PBool is_error))
  = first_object (PList warnings).
Proof.
  pose proof (first_object_map_none pii_entity_record entities
                first_object_pii_entity) as He.
  simpl in *. rewrite He. now destruct (_ warnings).
Qed.

Lemma first_object_phi_entry document_id entities entity_relations warnings is_error :
  first_object
    (log_entry "PHI"
       (PDict [ ("id", PStr document_id);
                ("entities", PList (healthcare_entities_of entities));
                ("relations", PList (relations_of entity_relations));
                ("warnings", PList warnings) ])
       (PBool is_error))
  = first_object (PList warnings).
Proof.
  rewrite healthcare_entities_of_map, relations_of_map.
  pose proof (first_object_map_none
                (fun entity => PDict (healthcare_entity_record entity)) entities
                first_object_healthcare_entity) as He.
  pose proof (first_object_map_none relation_info entity_relations
                first_object_relation) as Hr.
  simpl in *. rewrite He, Hr. now destruct (_ warnings).
Qed.

(** ** The log emitter *)

Lemma log_structured_data_ok message custom_dimensions errors :
  first_object (log_entry message custom_dimensions errors) = None ->
  runs (log_structured_data message custom_dimensions errors) (Ok tt)
       [LogRecord INFO (json_encode (log_entry message custom_dimensions errors))].
Proof.
  intros H. unfold log_structured_data.
  change (runs (bind (lift (json_dumps (log_entry message custom_dimensions errors)))
                     (fun line => logging_info line))
               (Ok tt)
               ([] ++ [LogRecord INFO
                         (json_encode (log_entry message custom_dimensions errors))])).
  eapply runs_bind_ok; [|apply runs_logging_info].
  unfold json_dumps. rewrite H. apply runs_lift.
Qed.

Lemma log_structured_data_raise message custom_dimensions errors cls :
  first_object (log_entry message custom_dimensions errors) = Some cls ->
  runs (log_structured_data message custom_dimensions errors)
       (Raise (TypeError_not_serializable cls)) [].
Proof.
  intros H. unfold log_structured_data.
  change (runs (bind (lift (json_dumps (log_entry message custom_dimensions errors)))
                     (fun line => logging_info line))
               (Raise (TypeError_not_serializable cls)) []).
  apply runs_bind_raise. unfold json_dumps. rewrite H. apply runs_lift.
Qed.

Lemma logs_only_log_structured_data document_id message rest errors :
  logs_only (analysis_record document_id)
    (log_structured_data message (PDict (("id", PStr document_id) :: rest)) errors).
Proof.
  destruct (first_object
              (log_entry message (PDict (("id", PStr document_id) :: rest)) errors))
    as [cls|] eqn:E.
  - exists (Raise (TypeError_not_serializable cls)), []. split; [constructor|].
    now apply log_structured_data_raise.
  - eexists _, _. split; [|now apply log_structured_data_ok].
    constructor; [|constructor]. right. now exists message, rest, errors.
Qed.

(** ** One result item *)

Lemma process_pii_ok document_id v text entities warnings is_err :
  first_object (PList warnings) = None ->
  runs (process_result document_id v
          (RecognizePiiEntitiesResult text entities warnings is_err))
       (Ok (Some text))
       [pii_log_record document_id
          (RecognizePiiEntitiesResult text entities warnings is_err)].
Proof.
  intros H. unfold process_result, pii_log_record. simpl kind. cbv iota beta.
  change [?r] with ([r] ++ [])%list.
  eapply runs_bind_ok; [|apply runs_ret].
  apply log_structured_data_ok. now rewrite first_object_pii_entry.
Qed.

Lemma process_pii_raise document_id v text entities warnings is_err cls :
  first_object (PList warnings) = Some cls ->
  runs (process_result document_id v
          (RecognizePiiEntitiesResult text entities warnings is_err))
       (Raise (TypeError_not_serializable cls)) [].
Proof.
  intros H. unfold process_result. simpl kind. cbv iota beta.
  apply runs_bind_raise.
  apply log_structured_data_raise. now rewrite first_object_pii_entry.
Qed.

Lemma process_healthcare_ok document_id v entities entity_relations warnings is_err :
  first_object (PList warnings) = None ->
  runs (process_result document_id v
          (AnalyzeHealthcareEntitiesResult entities entity_relations warnings is_err))
       (Ok v)
       [phi_log_record document_id
          (AnalyzeHealthcareEntitiesResult entities entity_relations warnings is_err)].
Proof.
  intros H. unfold process_result, phi_log_record. simpl kind. cbv iota beta.
  change [?r] with ([r] ++ [])%list.
  eapply runs_bind_ok; [|apply runs_ret].
  apply log_structured_data_ok. now rewrite first_object_phi_entry.
Qed.

Lemma process_healthcare_raise document_id v entities entity_relations warnings
      is_err cls :
  first_object (PList warnings) = Some cls ->
  runs (process_result document_id v
          (AnalyzeHealthcareEntitiesResult entities entity_relations warnings is_err))
       (Raise (TypeError_not_serializable cls)) [].
Proof.
  intros H. unfold process_result. simpl kind. cbv iota beta.
  apply runs_bind_raise.
  apply log_structured_data_raise. now rewrite first_object_phi_entry.
Qed.

Lemma process_error_result document_id v k error :
  k <> "PiiEntityRecognition" -> k <> "Healthcare" ->
  runs (process_result document_id v (OtherResult k true (Some error)))
       (Ok v) [error_log_record error].
Proof.
  intros H1 H2. unfold process_result. simpl kind. simpl is_error.
  apply String.eqb_neq in H1, H2. rewrite H1, H2.
  change [?r] with ([r] ++ [])%list.
  eapply runs_bind_ok; [apply runs_logging_error | apply runs_ret].
Qed.

Lemma process_unrecognized document_id v k error :
  k <> "PiiEntityRecognition" -> k <> "Healthcare" ->
  runs (process_result document_id v (OtherResult k false error)) (Ok v) [].
Proof.
  intros H1 H2. unfold process_result. simpl kind. simpl is_error.
  apply String.eqb_neq in H1, H2. rewrite H1, H2. apply runs_ret.
Qed.

(** Whatever the item, the step only logs, and only analysis records. *)
Lemma logs_only_process_result document_id v r :
  logs_only (analysis_record document_id) (process_result document_id v r).
Proof.
  unfold process_result.
  destruct (String.eqb (kind r) "PiiEntityRecognition").
  - destruct r; try apply logs_only_raise.
    apply logs_only_bind; [apply logs_only_log_structured_data|].
    intros _. apply logs_only_ret.
  - destruct (String.eqb (kind r) "Healthcare").
    + destruct r; try apply logs_only_raise.
      apply logs_only_bind; [apply logs_only_log_structured_data|].
      intros _. apply logs_only_ret.
    + destruct (is_error r); [|apply logs_only_ret].
      destruct r as [| |k e [error|]]; try apply logs_only_raise.
      apply logs_only_bind; [apply logs_only_error; now left|].
      intros _. apply logs_only_ret.
Qed.

(** A step that raises nothing leaves the variable alone unless the item is a
    PII result, whose redacted text it then holds. *)
Lemma process_result_state document_id v r w v' w' :
  process_result document_id v r w = (Ok v', w') ->
  v' = match r with
       | RecognizePiiEntitiesResult text _ _ _ => Some text
       | _ => v
       end.
Proof.
  destruct r as [text entities warnings e|entities rels warnings e|k e error].
  - destruct (first_object (PList warnings)) as [cls|] eqn:E; intros H.
    + eapply runs_at in H; [|now apply process_pii_raise; eauto].
      now destruct H.
    + eapply runs_at in H; [|now apply process_pii_ok].
      destruct H as [H _]. now inversion H.
  - destruct (first_object (PList warnings)) as [cls|] eqn:E; intros H.
    + eapply runs_at in H; [|now apply process_healthcare_raise; eauto].
      now destruct H.
    + eapply runs_at in H; [|now apply process_healthcare_ok].
      destruct H as [H _]. now inversion H.
  - unfold process_result. cbn [kind is_error].
    unfold raise, bind, logging_error, ret.
    destruct (String.eqb k "PiiEntityRecognition"); [discriminate|].
    destruct (String.eqb k "Healthcare"); [discriminate|].
    destruct e; [|now intros H; inversion H].
    destruct error as [error|]; [|discriminate].
    intros H. now inversion H.
Qed.

(** ** The loops *)

Lemma latest_cons (v : option string) (text : string) (texts : list string) :
  latest (Some text) texts = latest v (text :: texts).
Proof. destruct texts; reflexivity. Qed.

Lemma loop_state document_id (items : list result) :
  forall v w v' w',
    for_each (process_result document_id) items v w = (Ok v', w') ->
    v' = latest v (redacted_texts items).
Proof.
  induction items as [|r items IH]; intros v w v' w'; simpl for_each.
  - unfold ret. intros H. now inversion H.
  - unfold bind. destruct (process_result document_id v r w) as [[v1|e] w1] eqn:E;
      [|discriminate].
    intros H. apply IH in H. apply process_result_state in E. subst v1 v'.
    destruct r; simpl redacted_texts; auto using latest_cons.
Qed.

Lemma classify_results_flat document_id (rs : list (list result)) w :
  classify_results document_id rs w
  = bind (for_each (process_result document_id) (concat rs) None)
         (fun document_redacted_text =>
            match document_redacted_text with
            | Some text => ret (PStr text)
            | None => raise (UnboundLocalError "document_redacted_text")
            end) w.
Proof.
  unfold classify_results, bind. now rewrite for_each_concat.
Qed.

Lemma logs_only_classify_results document_id rs :
  logs_only (analysis_record document_id) (classify_results document_id rs).
Proof.
  unfold classify_results. apply logs_only_bind.
  - apply logs_only_for_each. intros s l.
    apply logs_only_for_each. intros s' r. apply logs_only_process_result.
  - intros [text|]; [apply logs_only_ret | apply logs_only_raise].
Qed.

Lemma logs_only_analysis_body env documents document_id :
  logs_only (analysis_record document_id) (analysis_body env documents document_id).
Proof.
  unfold analysis_body. apply logs_only_bind; [apply logs_only_lift|].
  intros rs. apply logs_only_classify_results.
Qed.

Lemma logs_only_analyze_pii_phi env documents document_id :
  logs_only (analysis_record document_id) (analyze_pii_phi env documents document_id).
Proof.
  unfold analyze_pii_phi. apply logs_only_try; [apply logs_only_analysis_body|].
  intros x. apply logs_only_bind; [apply logs_only_error; now left|].
  intros _. apply logs_only_ret.
Qed.

(** A body that raises nothing returns the last redacted text, and a PII
    result was among the items. *)
Lemma analysis_body_returns env documents document_id rs w v w' :
  text_analytics_client env documents = Ok rs ->
  analysis_body env documents document_id w = (Ok v, w') ->
  redacted_texts (concat rs) <> []
  /\ v = PStr (last (redacted_texts (concat rs)) EmptyString).
Proof.
  intros Hrs. unfold analysis_body, bind at 1, lift. rewrite Hrs.
  rewrite classify_results_flat. unfold bind.
  destruct (for_each (process_result document_id) (concat rs) None w)
    as [[v1|e] w1] eqn:E; [|discriminate].
  apply loop_state in E. subst v1.
  destruct (redacted_texts (concat rs)) as [|t ts]; simpl latest.
  - unfold raise. discriminate.
  - unfold ret. intros H. inversion H. split; [discriminate | reflexivity].
Qed.

(** Whether the body raises does not depend on the world it starts in. *)
Lemma raises_nothing_anywhere env documents document_id w1 w2 :
  raises_nothing (analysis_body env documents document_id) w1 ->
  raises_nothing (analysis_body env documents document_id) w2.
Proof.
  destruct (logs_only_analysis_body env documents document_id) as (r & e & _ & H).
  unfold raises_nothing. now rewrite !H.
Qed.

(** The handler, once the blob is decoded: it sets the output binding to
    what the analysis function returns. *)
Lemma handler_writes_analysis_result env myblob text w :
  bytes_decode (blob_content myblob) = Ok text ->
  forall value e,
    runs (analyze_pii_phi env [text] (uuid4 env)) (Ok value) e ->
    fst (analyze_sensitive_data env myblob w) = Ok tt
    /\ outputblob (snd (analyze_sensitive_data env myblob w)) = Some value.
Proof.
  intros Hd value e Hrun.
  unfold analyze_sensitive_data, bind, logging_info, lift, outputblob_set.
  rewrite Hd. cbv beta iota. rewrite Hrun. simpl. auto.
Qed.

(** ** The analysis function *)

Lemma runs_for_each_cons {A S} (body : S -> A -> M S) x xs s s' e1 r e2 :
  runs (body s x) (Ok s') e1 ->
  runs (for_each body xs s') r e2 ->
  runs (for_each body (x :: xs) s) r (e1 ++ e2).
Proof. intros H1 H2. simpl for_each. eapply runs_bind_ok; eauto. Qed.

Lemma runs_classify_results document_id rs text e :
  runs (for_each (process_result document_id) (concat rs) None) (Ok (Some text)) e ->
  runs (classify_results document_id rs) (Ok (PStr text)) e.
Proof.
  intros H w. rewrite classify_results_flat. unfold bind. rewrite H. reflexivity.
Qed.

Lemma runs_classify_results_unbound document_id rs e :
  runs (for_each (process_result document_id) (concat rs) None) (Ok None) e ->
  runs (classify_results document_id rs)
       (Raise (UnboundLocalError "document_redacted_text")) e.
Proof.
  intros H w. rewrite classify_results_flat. unfold bind. rewrite H. reflexivity.
Qed.

Lemma runs_analyze_ok env documents document_id rs value e :
  text_analytics_client env documents = Ok rs ->
  runs (classify_results document_id rs) (Ok value) e ->
  runs (analyze_pii_phi env documents document_id) (Ok value) e.
Proof.
  intros Hrs H. unfold analyze_pii_phi, analysis_body. apply runs_try_ok.
  rewrite Hrs. change e with ([] ++ e)%list.
  eapply runs_bind_ok; [apply runs_lift | exact H].
Qed.

Lemma runs_except (x : exn) :
  runs (logging_error ("Error analyzing document: " ++ exc_str x) ;;
        ret (failure_payload (exc_str x)))
       (Ok (failure_payload (exc_str x)))
       [LogRecord ERROR ("Error analyzing document: " ++ exc_str x)].
Proof.
  change [?r] with ([r] ++ [])%list.
  eapply runs_bind_ok; [apply runs_logging_error | apply runs_ret].
Qed.

Lemma runs_analyze_raise env documents document_id rs x e :
  text_analytics_client env documents = Ok rs ->
  is_Exception x = true ->
  runs (classify_results document_id rs) (Raise x) e ->
  runs (analyze_pii_phi env documents document_id)
       (Ok (failure_payload (exc_str x)))
       (e ++ [LogRecord ERROR ("Error analyzing document: " ++ exc_str x)]).
Proof.
  intros Hrs Hx H. unfold analyze_pii_phi, analysis_body.
  eapply runs_try_raise; [exact Hx| |apply runs_except].
  rewrite Hrs. change e with ([] ++ e)%list.
  eapply runs_bind_ok; [apply runs_lift | exact H].
Qed.

(** A submission the service rejects ends in the failure payload as well. *)
Lemma runs_analyze_service_error env documents document_id x :
  text_analytics_client env documents = Raise x ->
  is_Exception x = true ->
  runs (analyze_pii_phi env documents document_id)
       (Ok (failure_payload (exc_str x)))
       [LogRecord ERROR ("Error analyzing document: " ++ exc_str x)].
Proof.
  intros Hrs Hx. unfold analyze_pii_phi, analysis_body.
  change [?r] with ([] ++ [r])%list.
  eapply runs_try_raise; [exact Hx| |apply runs_except].
  rewrite Hrs. apply runs_bind_raise, runs_lift.
Qed.

(** What is no [Exception] passes through the analysis function. *)
Lemma runs_analyze_service_interrupt env documents document_id x :
  text_analytics_client env documents = Raise x ->
  is_Exception x = false ->
  runs (analyze_pii_phi env documents document_id) (Raise x) [].
Proof.
  intros Hrs Hx. unfold analyze_pii_phi, analysis_body.
  apply runs_try_pass; [exact Hx|].
  rewrite Hrs. apply runs_bind_raise, runs_lift.
Qed.

(** C1: when the result sequence holds at least one PII result and the body
    of the analysis function raises no exception, the function returns the
    redacted text of the last PII result in iteration order over all groups
    (earlier ones are overwritten), and the handler sets the output binding
    to that text. *)
Theorem last_pii_redacted_text_is_returned
    (env : environment) (documents : list string) (document_id : string)
    (rs : list (list result)) (w : world) :
  text_analytics_client env documents = Ok rs ->
  redacted_texts (concat rs) <> [] ->
  raises_nothing (analysis_body env documents document_id) w ->
  fst (analyze_pii_phi env documents document_id w)
  = Ok (PStr (last (redacted_texts (concat rs)) EmptyString))
  /\ (forall (myblob : InputStream) (text : string),
        bytes_decode (blob_content myblob) = Ok text ->
        documents = [text] ->
        document_id = uuid4 env ->
        outputblob (snd (analyze_sensitive_data env myblob w))
        = Some (PStr (last (redacted_texts (concat rs)) EmptyString))).
Proof.
  intros Hrs _ [a Ha].
  destruct (analysis_body env documents document_id w) as [r w'] eqn:E.
  simpl in Ha. subst r.
  destruct (analysis_body_returns _ _ _ _ _ _ _ Hrs E) as [_ ->].
  assert (Hfst : fst (analyze_pii_phi env documents document_id w)
                 = Ok (PStr (last (redacted_texts (concat rs)) EmptyString))).
  { unfold analyze_pii_phi, try_except. now rewrite E. }
  split; [exact Hfst|].
  intros myblob text Hd -> ->.
  destruct (logs_only_analyze_pii_phi env [text] (uuid4 env)) as (r & e & _ & Hrun).
  rewrite Hrun in Hfst. simpl in Hfst. subst r.
  now destruct (handler_writes_analysis_result env myblob text w Hd _ _ Hrun).
Qed.

Lemma last_pii_redacted_text_is_returned_witness :
  fst (analyze_pii_phi
         (Sample.responding [[Sample.pii; Sample.healthcare]; [Sample.other_pii]])
         ["hi"] (Sample.correlation_id) start)
  = Ok (PStr "second document")
  /\ outputblob
       (snd (analyze_sensitive_data
               (Sample.responding [[Sample.pii; Sample.healthcare]; [Sample.other_pii]])
               Sample.hello start))
     = Some (PStr "second document").
Proof.
  pose proof (last_pii_redacted_text_is_returned
                (Sample.responding [[Sample.pii; Sample.healthcare]; [Sample.other_pii]])
                ["hi"] (Sample.correlation_id)
                [[Sample.pii; Sample.healthcare]; [Sample.other_pii]] start
                eq_refl) as H.
  destruct H as [H1 H2].
  - discriminate.
  - exists (PStr "second document"). vm_compute. reflexivity.
  - split; [exact H1|]. apply (H2 Sample.hello "hi"); reflexivity.
Defined.

(** Over processable items the loop raises nothing: it logs the records of
    the items, one after the other, and leaves the last redacted text in the
    variable. *)
Lemma loop_runs document_id (items : list result) :
  forallb processable items = true ->
  forall v,
    runs (for_each (process_result document_id) items v)
         (Ok (latest v (redacted_texts items)))
         (flat_map (records_of document_id) items).
Proof.
  induction items as [|r items IH]; intros Hall v.
  - apply runs_ret.
  - simpl in Hall. apply andb_true_iff in Hall. destruct Hall as [Hr Hall].
    simpl flat_map.
    destruct r as [text entities warnings e|entities rels warnings e|k e error];
      simpl in Hr.
    + unfold serializable in Hr.
      destruct (first_object (PList warnings)) eqn:E; [discriminate|].
      eapply runs_for_each_cons; [now apply process_pii_ok|].
      simpl redacted_texts. rewrite <- latest_cons. now apply IH.
    + unfold serializable in Hr.
      destruct (first_object (PList warnings)) eqn:E; [discriminate|].
      eapply runs_for_each_cons; [now apply process_healthcare_ok|].
      now apply IH.
    + apply andb_true_iff in Hr. destruct Hr as [Hk Herr].
      apply andb_true_iff in Hk. destruct Hk as [Hk1 Hk2].
      apply negb_true_iff, String.eqb_neq in Hk1, Hk2.
      destruct e.
      * destruct error as [error|]; [|discriminate].
        eapply runs_for_each_cons; [now apply process_error_result|].
        now apply IH.
      * change (records_of document_id (OtherResult k false error)) with (@nil log_record).
        eapply runs_for_each_cons; [now apply process_unrecognized|].
        now apply IH.
Qed.

(** The analysis of a response made of processable items with a PII result
    among them: the redacted text of the last one, and one record per item
    that has one, in iteration order. *)
Lemma analysis_of_processable_items env documents document_id rs :
  text_analytics_client env documents = Ok rs ->
  forallb processable (concat rs) = true ->
  redacted_texts (concat rs) <> [] ->
  runs (analyze_pii_phi env documents document_id)
       (Ok (PStr (last (redacted_texts (concat rs)) EmptyString)))
       (flat_map (records_of document_id) (concat rs)).
Proof.
  intros Hrs Hall Hpii. eapply runs_analyze_ok; [exact Hrs|].
  apply runs_classify_results.
  pose proof (loop_runs document_id (concat rs) Hall None) as H.
  destruct (redacted_texts (concat rs)); [contradiction | exact H].
Qed.

(** ** Error handling *)

(** C3, as the claim has it, at an error item followed by a PII result that
    is no error but carries a warning object: the error line is logged, then
    json.dumps raises on the PII entry, the classification raises that
    TypeError, no PII record is logged and the analysis returns the failure
    payload. *)
Lemma warning_on_pii_result_stops_classification :
  is_error Sample.pii_with_warning = false
  /\ fst (classify_results "doc-1"
            [[Sample.document_error]; [Sample.pii_with_warning]] start)
     = Raise (TypeError_not_serializable "TextAnalyticsWarning")
  /\ analyze_pii_phi
       (Sample.responding [[Sample.document_error]; [Sample.pii_with_warning]])
       ["hi"] "doc-1" start
     = (Ok (failure_payload
              "Object of type TextAnalyticsWarning is not JSON serializable"),
        World [ error_log_record Sample.invalid_document;
                LogRecord ERROR
                  "Error analyzing document: Object of type TextAnalyticsWarning is not JSON serializable" ]
              None)
  /\ ~ In (pii_log_record "doc-1" Sample.pii_with_warning)
          (logged (snd (analyze_pii_phi
                          (Sample.responding
                             [[Sample.document_error]; [Sample.pii_with_warning]])
                          ["hi"] "doc-1" start))).
Proof.
  split; [reflexivity|]. split; [vm_compute; reflexivity|].
  split; [vm_compute; reflexivity|].
  intros H. vm_compute in H. destruct H as [H|[H|[]]]; discriminate.
Qed.

(** C3, amended: a result sequence made of one error item (kind neither
    PiiEntityRecognition nor Healthcare, [is_error] true, carrying code and
    message) and one PII result whose warnings hold JSON values only (none,
    for instance), in either order and however grouped: the PII record is
    logged, the error line with the item's code and message is logged, both
    items are processed, and the analysis returns the redacted text (nothing
    is raised, no failure payload). *)
Theorem error_item_does_not_stop_classification
    (env : environment) (documents : list string) (document_id : string)
    (rs : list (list result)) (k : string) (error : TextAnalyticsError.t)
    (text : string) (entities : list PiiEntity.t) (warnings : list pyval)
    (is_err : bool) (w : world) :
  text_analytics_client env documents = Ok rs ->
  k <> "PiiEntityRecognition" ->
  k <> "Healthcare" ->
  valid_pii_result (RecognizePiiEntitiesResult text entities warnings is_err) = true ->
  concat rs = [OtherResult k true (Some error);
               RecognizePiiEntitiesResult text entities warnings is_err]
  \/ concat rs = [RecognizePiiEntitiesResult text entities warnings is_err;
                  OtherResult k true (Some error)] ->
  exists records,
    classify_results document_id rs w = (Ok (PStr text), emit w records)
    /\ analyze_pii_phi env documents document_id w = (Ok (PStr text), emit w records)
    /\ List.length records = 2
    /\ In (pii_log_record document_id
             (RecognizePiiEntitiesResult text entities warnings is_err)) records
    /\ In (error_log_record error) records.
Proof.
  intros Hrs Hk1 Hk2 Hvalid Hitems.
  assert (Hw : first_object (PList warnings) = None).
  { unfold valid_pii_result, serializable in Hvalid.
    now destruct (first_object (PList warnings)). }
  pose proof (process_pii_ok document_id) as Hpii.
  pose proof (process_error_result document_id) as Herr.
  destruct Hitems as [Hitems|Hitems].
  - exists [error_log_record error;
            pii_log_record document_id
              (RecognizePiiEntitiesResult text entities warnings is_err)].
    assert (Hc : runs (classify_results document_id rs) (Ok (PStr text))
                   ([error_log_record error]
                    ++ [pii_log_record document_id
                          (RecognizePiiEntitiesResult text entities warnings is_err)]
                    ++ [])).
    { apply runs_classify_results. rewrite Hitems.
      eapply runs_for_each_cons; [now apply Herr|].
      eapply runs_for_each_cons; [now apply Hpii|]. apply runs_ret. }
    repeat split.
    + apply Hc.
    + now apply (runs_analyze_ok _ _ _ _ _ _ Hrs Hc).
    + simpl; auto.
    + simpl; auto.
  - exists [pii_log_record document_id
              (RecognizePiiEntitiesResult text entities warnings is_err);
            error_log_record error].
    assert (Hc : runs (classify_results document_id rs) (Ok (PStr text))
                   ([pii_log_record document_id
                       (RecognizePiiEntitiesResult text entities warnings is_err)]
                    ++ [error_log_record error] ++ [])).
    { apply runs_classify_results. rewrite Hitems.
      eapply runs_for_each_cons; [now apply Hpii|].
      eapply runs_for_each_cons; [now apply Herr|]. apply runs_ret. }
    repeat split.
    + apply Hc.
    + now apply (runs_analyze_ok _ _ _ _ _ _ Hrs Hc).
    + simpl; auto.
    + simpl; auto.
Qed.

Lemma error_item_does_not_stop_classification_witness :
  exists records,
    classify_results "doc-1" [[Sample.document_error]; [Sample.pii]] start
    = (Ok (PStr "**** is at **** now"), emit start records)
    /\ analyze_pii_phi
         (Sample.responding [[Sample.document_error]; [Sample.pii]])
         ["hi"] "doc-1" start
       = (Ok (PStr "**** is at **** now"), emit start records)
    /\ List.length records = 2
    /\ In (pii_log_record "doc-1" Sample.pii) records
    /\ In (error_log_record Sample.invalid_document) records.
Proof.
  apply (error_item_does_not_stop_classification
           (Sample.responding [[Sample.document_error]; [Sample.pii]])
           ["hi"] "doc-1" [[Sample.document_error]; [Sample.pii]]
           "DocumentError" Sample.invalid_document
           "**** is at **** now" [Sample.name_entity; Sample.phone_entity] []
           false start).
  - reflexivity.
  - discriminate.
  - discriminate.
  - reflexivity.
  - left. reflexivity.
Defined.

(** Without a PII result the variable is never bound: a loop that raises
    nothing is followed by UnboundLocalError, which the handler of the
    analysis function turns into the failure payload. *)
Lemma no_pii_result_fails env documents document_id rs w v w1 :
  text_analytics_client env documents = Ok rs ->
  redacted_texts (concat rs) = [] ->
  for_each (process_result document_id) (concat rs) None w = (Ok v, w1) ->
  analyze_pii_phi env documents document_id w
  = (Ok (failure_payload (exc_str (UnboundLocalError "document_redacted_text"))),
     emit w1 [LogRecord ERROR
                ("Error analyzing document: "
                 ++ exc_str (UnboundLocalError "document_redacted_text"))]).
Proof.
  intros Hrs Hnone Hloop.
  pose proof (loop_state _ _ _ _ _ _ Hloop) as Hv. rewrite Hnone in Hv.
  simpl in Hv. subst v.
  unfold analyze_pii_phi, try_except, analysis_body, bind at 1, lift.
  rewrite Hrs, classify_results_flat. unfold bind at 1. rewrite Hloop.
  reflexivity.
Qed.

(** C4, at a response that lacks the PII result (the healthcare result alone):
    the PHI record is logged, then the [return] finds the variable unbound and
    the invocation ends in the failure payload, which the handler writes as
    the output. *)
Theorem missing_pii_result_is_a_failure :
  analyze_pii_phi (Sample.responding [[Sample.empty_healthcare]]) ["hi"] "doc-1" start
  = (Ok (failure_payload
           "cannot access local variable 'document_redacted_text' where it is not associated with a value"),
     World [ phi_log_record "doc-1" Sample.empty_healthcare;
             LogRecord ERROR
               "Error analyzing document: cannot access local variable 'document_redacted_text' where it is not associated with a value" ]
           None)
  /\ outputblob
       (snd (analyze_sensitive_data
               (Sample.responding [[Sample.empty_healthcare]]) Sample.hello start))
     = Some (failure_payload
               "cannot access local variable 'document_redacted_text' where it is not associated with a value").
Proof. split; vm_compute; reflexivity. Qed.

(** The healthcare result may be absent: no PHI record, the redacted text is
    returned. *)
Lemma missing_healthcare_result_is_fine env documents document_id text entities
      warnings is_err :
  text_analytics_client env documents
  = Ok [[RecognizePiiEntitiesResult text entities warnings is_err]] ->
  first_object (PList warnings) = None ->
  runs (analyze_pii_phi env documents document_id) (Ok (PStr text))
       [pii_log_record document_id
          (RecognizePiiEntitiesResult text entities warnings is_err)].
Proof.
  intros Hrs Hw. eapply runs_analyze_ok; [exact Hrs|].
  apply runs_classify_results. simpl concat.
  change [?r] with ([r] ++ [])%list.
  eapply runs_for_each_cons; [now apply process_pii_ok | apply runs_ret].
Qed.

(** ** Undecodable input *)

Lemma decode_error_message (bs : list byte) (e : exn) :
  bytes_decode bs = Raise e ->
  exc_type e = "UnicodeDecodeError" /\ exc_str e <> EmptyString.
Proof.
  unfold bytes_decode. destruct (utf8_decode 0 bs) as [cps|i j bad reason];
    [discriminate|].
  intros H. inversion H. unfold UnicodeDecodeError. simpl.
  split; [reflexivity|]. destruct (Nat.eqb j (i + 1)); discriminate.
Qed.

(** C2, as the claim has it, at the one-byte blob 0xff: the decoding error
    leaves the handler, the output binding is never set and the only record
    logged is the starting line. *)
Lemma undecodable_blob_writes_no_payload :
  bytes_decode (blob_content Sample.not_utf8)
  = Raise (Exn "UnicodeDecodeError"
             "'utf-8' codec can't decode byte 0xff in position 0: invalid start byte")
  /\ analyze_sensitive_data (Sample.responding [[Sample.pii]]) Sample.not_utf8 start
     = (Raise (Exn "UnicodeDecodeError"
                 "'utf-8' codec can't decode byte 0xff in position 0: invalid start byte"),
        World [ LogRecord INFO
                  ("Starting analysis for document: note.txt with document ID: "
                   ++ Sample.correlation_id ++ newline) ]
              None)
  /\ fst (analyze_sensitive_data (Sample.responding [[Sample.pii]])
            Sample.not_utf8 start) <> Ok tt
  /\ ~ (exists msg,
          outputblob (snd (analyze_sensitive_data (Sample.responding [[Sample.pii]])
                             Sample.not_utf8 start))
          = Some (failure_payload msg)).
Proof.
  split; [vm_compute; reflexivity|]. split; [vm_compute; reflexivity|].
  split; [vm_compute; discriminate|].
  intros [msg H]. vm_compute in H. discriminate.
Qed.

(** C2, amended: for a blob whose bytes are not valid UTF-8 the decoding
    error (with a non-empty message) is raised past the handler; the handler
    logs its starting line and nothing else, calls neither the service nor the
    log emitter, and leaves the output binding as it was. *)
Theorem undecodable_blob_raises_past_the_handler
    (env : environment) (myblob : InputStream) (e : exn) (w : world) :
  bytes_decode (blob_content myblob) = Raise e ->
  analyze_sensitive_data env myblob w
  = (Raise e,
     emit w [ LogRecord INFO
                ("Starting analysis for document: " ++ blob_name myblob
                 ++ " with document ID: " ++ uuid4 env ++ newline) ])
  /\ outputblob (snd (analyze_sensitive_data env myblob w)) = outputblob w
  /\ exc_type e = "UnicodeDecodeError"
  /\ exc_str e <> EmptyString.
Proof.
  intros Hd.
  assert (H : analyze_sensitive_data env myblob w
              = (Raise e,
                 emit w [ LogRecord INFO
                            ("Starting analysis for document: " ++ blob_name myblob
                             ++ " with document ID: " ++ uuid4 env ++ newline) ])).
  { unfold analyze_sensitive_data, bind, logging_info, lift. now rewrite Hd. }
  split; [exact H|]. split; [now rewrite H|].
  now apply decode_error_message with (bs := blob_content myblob).
Qed.

Lemma undecodable_blob_raises_past_the_handler_witness :
  analyze_sensitive_data (Sample.responding [[Sample.pii]]) Sample.not_utf8 start
  = (Raise (UnicodeDecodeError 0 1 xff "invalid start byte"),
     emit start
       [ LogRecord INFO
           ("Starting analysis for document: " ++ blob_name Sample.not_utf8
            ++ " with document ID: " ++ uuid4 (Sample.responding [[Sample.pii]])
            ++ newline) ])
  /\ outputblob
       (snd (analyze_sensitive_data (Sample.responding [[Sample.pii]])
               Sample.not_utf8 start))
     = outputblob start
  /\ exc_type (UnicodeDecodeError 0 1 xff "invalid start byte") = "UnicodeDecodeError"
  /\ exc_str (UnicodeDecodeError 0 1 xff "invalid start byte") <> EmptyString.
Proof.
  apply (undecodable_blob_raises_past_the_handler
           (Sample.responding [[Sample.pii]]) Sample.not_utf8
           (UnicodeDecodeError 0 1 xff "invalid start byte") start).
  reflexivity.
Defined.

(** ** A record that does not serialize *)

(** C5, as the claim has it, at a PII result that carries a warning object,
    followed by an error item: json.dumps raises in the emitter, the error
    item is never classified (no line for it) and the failure payload is
    returned where the redacted text would be. *)
Lemma unserializable_record_aborts_processing :
  analyze_pii_phi
    (Sample.responding [[Sample.pii_with_warning; Sample.document_error]])
    ["hi"] "doc-1" start
  = (Ok (failure_payload "Object of type TextAnalyticsWarning is not JSON serializable"),
     World [ LogRecord ERROR
               "Error analyzing document: Object of type TextAnalyticsWarning is not JSON serializable" ]
           None)
  /\ ~ (exists text,
          fst (analyze_pii_phi
                 (Sample.responding [[Sample.pii_with_warning; Sample.document_error]])
                 ["hi"] "doc-1" start)
          = Ok (PStr text))
  /\ ~ In (error_log_record Sample.invalid_document)
          (logged (snd (analyze_pii_phi
                          (Sample.responding
                             [[Sample.pii_with_warning; Sample.document_error]])
                          ["hi"] "doc-1" start))).
Proof.
  split; [vm_compute; reflexivity|]. split.
  - intros [text H]. vm_compute in H. discriminate.
  - intros H. vm_compute in H. destruct H as [H|[]]. discriminate.
Qed.

(** C5, amended: when the entry of a PII or healthcare item does not
    serialize, the emitter raises the TypeError of json.dumps and logs
    nothing; the items after it are not classified; the analysis function
    catches the error, logs one error line and returns the failure payload in
    place of the redacted text.  No exception leaves the analysis function. *)
Theorem serialization_failure_becomes_the_failure_payload
    (env : environment) (documents : list string) (document_id : string)
    (rs : list (list result)) (before : list result) (r : result)
    (after : list result) (cls : string) (v : option string) (w w1 : world) :
  text_analytics_client env documents = Ok rs ->
  concat rs = (before ++ r :: after)%list ->
  for_each (process_result document_id) before None w = (Ok v, w1) ->
  unserializable_item r cls ->
  process_result document_id v r w1 = (Raise (TypeError_not_serializable cls), w1)
  /\ analyze_pii_phi env documents document_id w
     = (Ok (failure_payload (exc_str (TypeError_not_serializable cls))),
        emit w1 [ LogRecord ERROR
                    ("Error analyzing document: "
                     ++ exc_str (TypeError_not_serializable cls)) ]).
Proof.
  intros Hrs Hitems Hbefore Hr.
  assert (Hstep : process_result document_id v r w1
                  = (Raise (TypeError_not_serializable cls), w1)).
  { destruct r as [text entities warnings e|entities rels warnings e|k e error];
      simpl in Hr; [| |contradiction].
    - rewrite (process_pii_raise document_id v text entities warnings e cls Hr).
      now rewrite emit_nil.
    - rewrite (process_healthcare_raise document_id v entities rels warnings e cls Hr).
      now rewrite emit_nil. }
  split; [exact Hstep|].
  unfold analyze_pii_phi, try_except, analysis_body, bind at 1, lift.
  rewrite Hrs, classify_results_flat, Hitems. unfold bind at 1.
  rewrite for_each_app. unfold bind at 1. rewrite Hbefore.
  simpl for_each. unfold bind at 1. rewrite Hstep. reflexivity.
Qed.

Lemma serialization_failure_becomes_the_failure_payload_witness :
  process_result "doc-1" None Sample.pii_with_warning
    (emit start [phi_log_record "doc-1" Sample.healthcare])
  = (Raise (TypeError_not_serializable "TextAnalyticsWarning"),
     emit start [phi_log_record "doc-1" Sample.healthcare])
  /\ analyze_pii_phi
       (Sample.responding
          [[Sample.healthcare; Sample.pii_with_warning; Sample.document_error]])
       ["hi"] "doc-1" start
     = (Ok (failure_payload (exc_str (TypeError_not_serializable "TextAnalyticsWarning"))),
        emit (emit start [phi_log_record "doc-1" Sample.healthcare])
          [ LogRecord ERROR
              ("Error analyzing document: "
               ++ exc_str (TypeError_not_serializable "TextAnalyticsWarning")) ]).
Proof.
  apply (serialization_failure_becomes_the_failure_payload
           (Sample.responding
              [[Sample.healthcare; Sample.pii_with_warning; Sample.document_error]])
           ["hi"] "doc-1"
           [[Sample.healthcare; Sample.pii_with_warning; Sample.document_error]]
           [Sample.healthcare] Sample.pii_with_warning [Sample.document_error]
           "TextAnalyticsWarning" None start
           (emit start [phi_log_record "doc-1" Sample.healthcare])).
  - reflexivity.
  - reflexivity.
  - vm_compute. reflexivity.
  - reflexivity.
Defined.

(** ** The projected records *)

(** C6: the record of a healthcare entity carries category, subcategory,
    confidence_score, offset and length as they are in the entity; its
    data_sources are the projected sources, the empty list when the entity has
    none; the key assertion is there exactly when the entity has an assertion
    (left out, not null, otherwise); and the entities of a result are
    projected one record each, in order. *)
Theorem healthcare_entity_projection
    (entity : HealthcareEntity.t) (entities : list HealthcareEntity.t) :
  dict_get "category" (healthcare_entity_record entity)
  = Some (PStr (HealthcareEntity.category entity))
  /\ dict_get "subcategory" (healthcare_entity_record entity)
     = Some (opt_str (HealthcareEntity.subcategory entity))
  /\ dict_get "confidence_score" (healthcare_entity_record entity)
     = Some (PFloat (HealthcareEntity.confidence_score entity))
  /\ dict_get "offset" (healthcare_entity_record entity)
     = Some (PInt (HealthcareEntity.offset entity))
  /\ dict_get "length" (healthcare_entity_record entity)
     = Some (PInt (HealthcareEntity.length entity))
  /\ dict_get "data_sources" (healthcare_entity_record entity)
     = Some (PList (map data_source_record
                      (sources_or_empty (HealthcareEntity.data_sources entity))))
  /\ dict_get "assertion" (healthcare_entity_record entity)
     = option_map assertion_record (HealthcareEntity.assertion entity)
  /\ dict_keys (healthcare_entity_record entity)
     = ([ "category"; "subcategory"; "confidence_score"; "data_sources";
          "offset"; "length" ]
        ++ match HealthcareEntity.assertion entity with
           | Some _ => ["assertion"]
           | None => []
           end)%list
  /\ healthcare_entities_of entities
     = map (fun entity => PDict (healthcare_entity_record entity)) entities.
Proof.
  rewrite healthcare_entity_record_eq, healthcare_entities_of_map.
  destruct (HealthcareEntity.assertion entity); repeat split; reflexivity.
Qed.

(** C7: the relations of a healthcare result are projected one record each
    (so the logged array has as many entries as the result has relations);
    a record carries the relation's confidence score and type as they are and
    one role record per role, made of the role's name alone; the PHI entry
    logged for the result holds exactly these records (unless json.dumps
    raises on the result's warnings, when nothing is logged). *)
Theorem relation_projection
    (entity_relations : list HealthcareRelation.t)
    (relation : HealthcareRelation.t)
    (role_name : string) (entity entity' : HealthcareEntity.t)
    (document_id : string) (entities : list HealthcareEntity.t)
    (warnings : list pyval) (is_err : bool) (v : option string) (w : world) :
  List.length (relations_of entity_relations) = List.length entity_relations
  /\ relations_of entity_relations = map relation_info entity_relations
  /\ relation_info relation
     = PDict [ ("confidenceScore", PFloat (HealthcareRelation.confidence_score relation));
               ("relationType", PStr (HealthcareRelation.relation_type relation));
               ("entities", PList (map role_record (HealthcareRelation.roles relation))) ]
  /\ List.length (map role_record (HealthcareRelation.roles relation))
     = List.length (HealthcareRelation.roles relation)
  /\ role_record (HealthcareRelationRole.make role_name entity)
     = role_record (HealthcareRelationRole.make role_name entity')
  /\ ((first_object (PList warnings) = None
       /\ process_result document_id v
            (AnalyzeHealthcareEntitiesResult entities entity_relations warnings is_err) w
          = (Ok v,
             emit w [ LogRecord INFO
                        (json_encode
                           (log_entry "PHI"
                              (PDict [ ("id", PStr document_id);
                                       ("entities",
                                        PList (map (fun entity =>
                                                      PDict (healthcare_entity_record entity))
                                                 entities));
                                       ("relations",
                                        PList (map relation_info entity_relations));
                                       ("warnings", PList warnings) ])
                              (PBool is_err))) ]))
      \/ (exists cls,
            first_object (PList warnings) = Some cls
            /\ process_result document_id v
                 (AnalyzeHealthcareEntitiesResult entities entity_relations warnings is_err) w
               = (Raise (TypeError_not_serializable cls), w))).
Proof.
  rewrite relations_of_map, relation_info_eq.
  repeat split; try reflexivity; try apply length_map.
  destruct (first_object (PList warnings)) as [cls|] eqn:E.
  - right. exists cls. split; [reflexivity|].
    rewrite (process_healthcare_raise document_id v entities entity_relations
               warnings is_err cls E).
    now rewrite emit_nil.
  - left. split; [reflexivity|].
    rewrite (process_healthcare_ok document_id v entities entity_relations
               warnings is_err E).
    unfold phi_log_record. now rewrite healthcare_entities_of_map, relations_of_map.
Qed.

(** C8: processing a PII result sets the variable to exactly the result's
    redacted text (unless json.dumps raises on the result's warnings, when the
    step ends in that error); each entity is projected to a record with exactly the keys
    category, subcategory, offset, length and confidence_score holding the
    entity's values; the fabricated response with two entities yields the two
    records, field for field, and its redacted text. *)
Theorem pii_extraction_and_projection
    (entity : PiiEntity.t) (entities : list PiiEntity.t)
    (document_id text : string) (v : option string) (warnings : list pyval)
    (is_err : bool) (w : world) :
  pii_entity_record entity
  = PDict [ ("category", PStr (PiiEntity.category entity));
            ("subcategory", opt_str (PiiEntity.subcategory entity));
            ("offset", PInt (PiiEntity.offset entity));
            ("length", PInt (PiiEntity.length entity));
            ("confidence_score", PFloat (PiiEntity.confidence_score entity)) ]
  /\ List.length (map pii_entity_record entities) = List.length entities
  /\ ((first_object (PList warnings) = None
       /\ process_result document_id v
            (RecognizePiiEntitiesResult text entities warnings is_err) w
          = (Ok (Some text),
             emit w [ LogRecord INFO
                        (json_encode
                           (log_entry "PII"
                              (PDict [ ("id", PStr document_id);
                                       ("entities", PList (map pii_entity_record entities));
                                       ("warnings", PList warnings) ])
                              (PBool is_err))) ]))
      \/ (exists cls,
            first_object (PList warnings) = Some cls
            /\ process_result document_id v
                 (RecognizePiiEntitiesResult text entities warnings is_err) w
               = (Raise (TypeError_not_serializable cls), w)))
  /\ fst (analyze_pii_phi (Sample.responding [[Sample.pii]]) ["hi"] document_id w)
     = Ok (PStr "**** is at **** now")
  /\ map pii_entity_record [Sample.name_entity; Sample.phone_entity]
     = [ PDict [ ("category", PStr "Name"); ("subcategory", PNone);
                 ("offset", PInt 0); ("length", PInt 4);
                 ("confidence_score", PFloat (PyFloat "0.9")) ];
         PDict [ ("category", PStr "Phone"); ("subcategory", PNone);
                 ("offset", PInt 10); ("length", PInt 8);
                 ("confidence_score", PFloat (PyFloat "0.95")) ] ].
Proof.
  split; [reflexivity|]. split; [apply length_map|].
  split.
  { destruct (first_object (PList warnings)) as [cls|] eqn:E.
    - right. exists cls. split; [reflexivity|].
      rewrite (process_pii_raise document_id v text entities warnings is_err cls E).
      now rewrite emit_nil.
    - left. split; [reflexivity|].
      exact (process_pii_ok document_id v text entities warnings is_err E w). }
  split; [|reflexivity].
  rewrite (missing_healthcare_result_is_fine
             (Sample.responding [[Sample.pii]]) ["hi"] document_id
             "**** is at **** now" [Sample.name_entity; Sample.phone_entity] []
             false eq_refl eq_refl w).
  reflexivity.
Qed.

(** ** The emitted records *)

Lemma string_app_assoc (a b c : string) : (a ++ b) ++ c = a ++ b ++ c.
Proof. induction a as [|x a IH]; simpl; [reflexivity | now rewrite IH]. Qed.

(** The serialized entry ends with the schema version. *)
Lemma log_entry_suffix (message : string) (custom_dimensions errors : pyval) :
  json_encode (log_entry message custom_dimensions errors)
  = ("{" ++ py_encode_basestring_ascii "analysis_type" ++ ": "
         ++ py_encode_basestring_ascii message
         ++ ", " ++ py_encode_basestring_ascii "documents" ++ ": "
         ++ json_encode custom_dimensions
         ++ ", " ++ py_encode_basestring_ascii "errors" ++ ": "
         ++ json_encode errors)
    ++ version_suffix.
Proof.
  unfold log_entry.
  cbn [json_encode map String.concat fst snd].
  change (py_encode_basestring_ascii "modelVersion" ++ ": "
          ++ py_encode_basestring_ascii "2023-09-01")
    with (dquote ++ "modelVersion" ++ dquote ++ ": " ++ dquote ++ "2023-09-01" ++ dquote).
  unfold version_suffix.
  rewrite !string_app_assoc. reflexivity.
Qed.

(** C10: every structured record the analysis function logs (its INFO
    records, of the PII and of the PHI kind) is the serialization of an entry
    whose modelVersion is the constant 2023-09-01 and whose documents payload
    has as id the document id the function was given; the text of the record
    ends with that version. *)
Theorem structured_records_carry_version_and_id
    (env : environment) (documents : list string) (document_id : string)
    (w : world) (record : log_record) :
  In record (emitted (analyze_pii_phi env documents document_id) w) ->
  levelname record = INFO ->
  exists entry payload body,
    message record = json_encode (PDict entry)
    /\ dict_get "modelVersion" entry = Some (PStr "2023-09-01")
    /\ dict_get "documents" entry = Some (PDict payload)
    /\ dict_get "id" payload = Some (PStr document_id)
    /\ message record = body ++ version_suffix.
Proof.
  intros Hin Hinfo.
  destruct (logs_only_analyze_pii_phi env documents document_id) as (r & e & HP & H).
  destruct (runs_emitted _ r e w H) as [_ He]. rewrite He in Hin.
  rewrite Forall_forall in HP. destruct (HP record Hin) as [Herr|Hrec].
  - rewrite Hinfo in Herr. discriminate.
  - destruct Hrec as (analysis_type & rest & errors & Hmsg).
    eexists _, (("id", PStr document_id) :: rest), _.
    split; [exact Hmsg|].
    split; [reflexivity|]. split; [reflexivity|]. split; [reflexivity|].
    rewrite Hmsg. apply log_entry_suffix.
Qed.

Lemma structured_records_carry_version_and_id_witness :
  exists entry payload body,
    message (pii_log_record "doc-1" Sample.pii) = json_encode (PDict entry)
    /\ dict_get "modelVersion" entry = Some (PStr "2023-09-01")
    /\ dict_get "documents" entry = Some (PDict payload)
    /\ dict_get "id" payload = Some (PStr "doc-1")
    /\ message (pii_log_record "doc-1" Sample.pii) = body ++ version_suffix.
Proof.
  apply (structured_records_carry_version_and_id
           (Sample.responding [[Sample.pii; Sample.healthcare]])
           ["hi"] "doc-1" start (pii_log_record "doc-1" Sample.pii)).
  - vm_compute. left. reflexivity.
  - reflexivity.
Defined.

(** * More of the program *)

(** ** The loop, item by item *)

Lemma process_processable document_id v r :
  processable r = true ->
  runs (process_result document_id v r)
       (Ok match r with
           | RecognizePiiEntitiesResult text _ _ _ => Some text
           | _ => v
           end)
       (records_of document_id r).
Proof.
  intros Hr.
  destruct r as [text entities warnings e|entities rels warnings e|k e error];
    simpl in Hr.
  - unfold serializable in Hr.
    destruct (first_object (PList warnings)) eqn:E; [discriminate|].
    now apply process_pii_ok.
  - unfold serializable in Hr.
    destruct (first_object (PList warnings)) eqn:E; [discriminate|].
    now apply process_healthcare_ok.
  - apply andb_true_iff in Hr. destruct Hr as [Hk Herr].
    apply andb_true_iff in Hk. destruct Hk as [Hk1 Hk2].
    apply negb_true_iff, String.eqb_neq in Hk1, Hk2.
    destruct e.
    + destruct error as [error|]; [|discriminate].
      now apply process_error_result.
    + now apply process_unrecognized.
Qed.

(** On any other item the step raises, an [Exception], and logs nothing;
    which exception does not depend on the document id. *)
Lemma process_unprocessable_raises r :
  processable r = false ->
  exists x,
    is_Exception x = true
    /\ forall document_id v, runs (process_result document_id v r) (Raise x) [].
Proof.
  intros Hr.
  destruct r as [text entities warnings e|entities rels warnings e|k e error];
    simpl in Hr.
  - unfold serializable in Hr.
    destruct (first_object (PList warnings)) as [cls|] eqn:E; [|discriminate].
    exists (TypeError_not_serializable cls). split; [reflexivity|].
    intros document_id v. now apply process_pii_raise.
  - unfold serializable in Hr.
    destruct (first_object (PList warnings)) as [cls|] eqn:E; [|discriminate].
    exists (TypeError_not_serializable cls). split; [reflexivity|].
    intros document_id v. now apply process_healthcare_raise.
  - unfold process_result. cbn [kind is_error].
    destruct (String.eqb k "PiiEntityRecognition").
    + eexists. split; [|intros; apply runs_raise]. reflexivity.
    + destruct (String.eqb k "Healthcare").
      * eexists. split; [|intros; apply runs_raise]. reflexivity.
      * destruct e; [|discriminate].
        destruct error as [error|]; [discriminate|].
        eexists. split; [|intros; apply runs_raise]. reflexivity.
Qed.

(** On an item tagged as the SDK tags, the exception is the one [item_error]
    names. *)
Lemma process_unprocessable document_id v r :
  kind_tagged r = true ->
  processable r = false ->
  exists x, item_error r = Some x
            /\ is_Exception x = true
            /\ runs (process_result document_id v r) (Raise x) [].
Proof.
  intros Ht Hr.
  destruct r as [text entities warnings e|entities rels warnings e|k e error];
    simpl in Hr.
  - unfold serializable in Hr.
    destruct (first_object (PList warnings)) as [cls|] eqn:E; [|discriminate].
    exists (TypeError_not_serializable cls). split; [|split; [reflexivity|]].
    + unfold item_error. now rewrite E.
    + now apply process_pii_raise.
  - unfold serializable in Hr.
    destruct (first_object (PList warnings)) as [cls|] eqn:E; [|discriminate].
    exists (TypeError_not_serializable cls). split; [|split; [reflexivity|]].
    + unfold item_error. now rewrite E.
    + now apply process_healthcare_raise.
  - simpl in Ht. rewrite Ht in Hr. simpl in Hr.
    apply andb_true_iff in Ht. destruct Ht as [Hk1 Hk2].
    apply negb_true_iff in Hk1, Hk2.
    unfold process_result. cbn [kind is_error]. rewrite Hk1, Hk2.
    destruct e; [|discriminate]. destruct error as [error|]; [discriminate|].
    eexists. split; [reflexivity|]. split; [reflexivity | apply runs_raise].
Qed.

Lemma runs_for_each_cons_raise {A S} (body : S -> A -> M S) x xs s e0 e :
  runs (body s x) (Raise e0) e ->
  runs (for_each body (x :: xs) s) (Raise e0) e.
Proof. intros H. simpl for_each. now apply runs_bind_raise. Qed.

Lemma latest_step (v : option string) (r : result) (items : list result) :
  latest v (redacted_texts (r :: items))
  = latest match r with
           | RecognizePiiEntitiesResult text _ _ _ => Some text
           | _ => v
           end
           (redacted_texts items).
Proof. destruct r; simpl redacted_texts; auto using latest_cons. Qed.

(** The loop logs the records of the items up to the first it cannot
    process, one after the other, whatever the document id; it ends with the
    last redacted text in the variable or with an [Exception], the same for
    every document id. *)
Lemma loop_outcome (items : list result) :
  forall v,
  exists o,
    (o = Ok (latest v (redacted_texts items))
     \/ exists x, o = Raise x /\ is_Exception x = true)
    /\ forall document_id,
         runs (for_each (process_result document_id) items v) o
              (flat_map (records_of document_id) (take_while processable items)).
Proof.
  induction items as [|r items IH]; intros v.
  - exists (Ok v). split; [now left | intros; apply runs_ret].
  - simpl take_while. destruct (processable r) eqn:Hr.
    + destruct (IH match r with
                   | RecognizePiiEntitiesResult text _ _ _ => Some text
                   | _ => v
                   end) as (o & Ho & Hrun).
      exists o. split.
      * rewrite latest_step. exact Ho.
      * intros document_id. simpl flat_map.
        eapply runs_for_each_cons; [now apply process_processable | apply Hrun].
    + destruct (process_unprocessable_raises r Hr) as (x & Hx & Hrun).
      exists (Raise x). split; [right; now exists x|].
      intros document_id. simpl flat_map.
      apply runs_for_each_cons_raise, Hrun.
Qed.

Lemma classify_outcome (rs : list (list result)) :
  exists o,
    ((exists text, o = Ok (PStr text))
     \/ exists x, o = Raise x /\ is_Exception x = true)
    /\ forall document_id,
         runs (classify_results document_id rs) o
              (flat_map (records_of document_id)
                 (take_while processable (concat rs))).
Proof.
  destruct (loop_outcome (concat rs) None) as (o & [->|(x & -> & Hx)] & Hrun).
  - destruct (redacted_texts (concat rs)) as [|t ts] eqn:Ht.
    + exists (Raise (UnboundLocalError "document_redacted_text")).
      split; [right; eexists; split; reflexivity|].
      intros document_id w. rewrite classify_results_flat. unfold bind.
      now rewrite Hrun.
    + exists (Ok (PStr (last (t :: ts) EmptyString))).
      split; [left; now eexists|].
      intros document_id w. rewrite classify_results_flat. unfold bind.
      now rewrite Hrun.
  - exists (Raise x). split; [right; now exists x|].
    intros document_id w. rewrite classify_results_flat. unfold bind.
    now rewrite Hrun.
Qed.

(** The analysis function: a text or the failure payload, unless the service
    call raises what is no [Exception]; the outcome is the same for every
    document id. *)
Lemma analysis_outcome env documents :
  exists o,
    ((exists value, o = Ok value)
     \/ exists x, o = Raise x
                  /\ text_analytics_client env documents = Raise x
                  /\ is_Exception x = false)
    /\ forall document_id,
       exists records, runs (analyze_pii_phi env documents document_id) o records.
Proof.
  destruct (text_analytics_client env documents) as [rs|x] eqn:Hrs.
  - destruct (classify_outcome rs) as (o & [[text ->]|(x & -> & Hx)] & Hrun).
    + exists (Ok (PStr text)). split; [left; now eexists|].
      intros document_id. eexists.
      apply (runs_analyze_ok _ _ _ _ _ _ Hrs (Hrun document_id)).
    + exists (Ok (failure_payload (exc_str x))). split; [left; now eexists|].
      intros document_id. eexists.
      apply (runs_analyze_raise _ _ _ _ _ _ Hrs Hx (Hrun document_id)).
  - destruct (is_Exception x) eqn:Hx.
    + exists (Ok (failure_payload (exc_str x))). split; [left; now eexists|].
      intros document_id. eexists.
      now apply runs_analyze_service_error.
    + exists (Raise x). split; [right; now exists x|].
      intros document_id. eexists.
      now apply runs_analyze_service_interrupt.
Qed.

(** ** The loop on a response tagged as the SDK tags *)

Lemma loop_trace document_id (items : list result) :
  forallb kind_tagged items = true ->
  forall v,
    runs (for_each (process_result document_id) items v)
         match raised_by items with
         | Some x => Raise x
         | None => Ok (latest v (redacted_texts items))
         end
         (flat_map (records_of document_id) (take_while processable items))
    /\ forall x, raised_by items = Some x -> is_Exception x = true.
Proof.
  induction items as [|r items IH]; intros Ht v.
  - split; [apply runs_ret | discriminate].
  - simpl in Ht. apply andb_true_iff in Ht. destruct Ht as [Hr0 Ht].
    unfold raised_by. simpl find. simpl take_while.
    destruct (processable r) eqn:Hr; simpl negb; cbv iota.
    + destruct (IH Ht match r with
                      | RecognizePiiEntitiesResult text _ _ _ => Some text
                      | _ => v
                      end) as [Hrun Hexc].
      split; [|exact Hexc].
      simpl flat_map.
      eapply runs_for_each_cons; [now apply process_processable|].
      rewrite latest_step. apply Hrun.
    + destruct (process_unprocessable document_id v r Hr0 Hr) as (x & Hx & Hex & Hrun).
      rewrite Hx. split.
      * simpl flat_map. now apply runs_for_each_cons_raise.
      * intros y Hy. inversion Hy. now subst y.
Qed.

Lemma analysis_trace env documents document_id :
  tagged_response (text_analytics_client env documents) = true ->
  runs (analyze_pii_phi env documents document_id)
       (fst (analysis_of_response document_id
               (text_analytics_client env documents)))
       (snd (analysis_of_response document_id
               (text_analytics_client env documents))).
Proof.
  intros Ht.
  destruct (text_analytics_client env documents) as [rs|x] eqn:Hrs.
  - simpl in Ht.
    destruct (loop_trace document_id (concat rs) Ht None) as [Hloop Hexc].
    simpl analysis_of_response. unfold analysis_of.
    destruct (raised_by (concat rs)) as [x|].
    + apply (runs_analyze_raise _ _ _ _ _ _ Hrs (Hexc x eq_refl)).
      intros w. rewrite classify_results_flat. unfold bind. now rewrite Hloop.
    + destruct (redacted_texts (concat rs)) as [|t ts].
      * apply (runs_analyze_raise env documents document_id rs
                 (UnboundLocalError "document_redacted_text") _ Hrs eq_refl).
        intros w. rewrite classify_results_flat. unfold bind. now rewrite Hloop.
      * apply (runs_analyze_ok _ _ _ _ _ _ Hrs).
        intros w. rewrite classify_results_flat. unfold bind. now rewrite Hloop.
  - simpl analysis_of_response. destruct (is_Exception x) eqn:Hx.
    + now apply runs_analyze_service_error.
    + now apply runs_analyze_service_interrupt.
Qed.

(** ** The handler on a blob that decodes *)

(** The starting line, the run of the analysis function, the output binding
    set, the closing line. *)
Lemma handler_completes env myblob text value records :
  bytes_decode (blob_content myblob) = Ok text ->
  runs (analyze_pii_phi env [text] (uuid4 env)) (Ok value) records ->
  forall w,
    analyze_sensitive_data env myblob w
    = (Ok tt,
       World (logged w ++ [starting_line env myblob] ++ records
              ++ [completed_line env myblob])%list
             (Some value)).
Proof.
  intros Hd Hrun w.
  unfold analyze_sensitive_data, bind, logging_info, lift, outputblob_set.
  rewrite Hd. cbv beta iota. rewrite Hrun. unfold emit. simpl.
  now rewrite <- !app_assoc.
Qed.

(** When the analysis function raises, so does the handler, before it sets
    the output binding. *)
Lemma handler_interrupted env myblob text x records :
  bytes_decode (blob_content myblob) = Ok text ->
  runs (analyze_pii_phi env [text] (uuid4 env)) (Raise x) records ->
  forall w,
    analyze_sensitive_data env myblob w
    = (Raise x,
       World (logged w ++ [starting_line env myblob] ++ records)%list
             (outputblob w)).
Proof.
  intros Hd Hrun w.
  unfold analyze_sensitive_data, bind, logging_info, lift, outputblob_set.
  rewrite Hd. cbv beta iota. rewrite Hrun. unfold emit. simpl.
  now rewrite <- !app_assoc.
Qed.

(** ** What is logged, and when *)

(** C9: the records the classification logs are those of the items of the
    result set up to the first the loop cannot process, each serialized from
    the item and the document id alone.  Whatever the log and the output
    binding hold when it starts, it logs these very records and ends the same
    way; run a second time after the first, it logs them once more, text for
    text. *)
Theorem classification_is_deterministic
    (document_id : string) (rs : list (list result)) (w w' : world) :
  emitted (classify_results document_id rs) w
  = flat_map (records_of document_id) (take_while processable (concat rs))
  /\ emitted (classify_results document_id rs) w'
     = emitted (classify_results document_id rs) w
  /\ fst (classify_results document_id rs w')
     = fst (classify_results document_id rs w)
  /\ emitted (classify_results document_id rs)
       (snd (classify_results document_id rs w))
     = emitted (classify_results document_id rs) w
  /\ logged (snd (classify_results document_id rs
                    (snd (classify_results document_id rs w))))
     = (logged w
        ++ flat_map (records_of document_id) (take_while processable (concat rs))
        ++ flat_map (records_of document_id) (take_while processable (concat rs)))%list.
Proof.
  destruct (classify_outcome rs) as (o & _ & Hrun).
  specialize (Hrun document_id).
  destruct (runs_emitted _ _ _ w Hrun) as [Hv He].
  destruct (runs_emitted _ _ _ w' Hrun) as [Hv' He'].
  destruct (runs_emitted _ _ _ (snd (classify_results document_id rs w)) Hrun)
    as [_ He''].
  rewrite He, He', He'', Hv, Hv'. repeat split.
  rewrite (Hrun w). simpl snd. rewrite (Hrun (emit w _)). simpl.
  now rewrite app_assoc.
Qed.

(** ** The analysis function as a whole *)

(** X1: the analysis function turns every [Exception] into the failure
    payload: it returns a text, or the failure payload, and then the last
    record it logs is the error line with the very message the payload
    carries.  It raises only what the service call raised that is no
    [Exception] (KeyboardInterrupt, SystemExit), and then it logs nothing. *)
Theorem analysis_returns_text_or_failure_payload
    (env : environment) (documents : list string) (document_id : string) :
  exists records,
    (exists text,
       runs (analyze_pii_phi env documents document_id) (Ok (PStr text)) records)
    \/ (exists msg,
          runs (analyze_pii_phi env documents document_id)
               (Ok (failure_payload msg))
               (records ++ [LogRecord ERROR ("Error analyzing document: " ++ msg)]))
    \/ (exists x,
          text_analytics_client env documents = Raise x
          /\ is_Exception x = false
          /\ records = []
          /\ runs (analyze_pii_phi env documents document_id) (Raise x) []).
Proof.
  destruct (text_analytics_client env documents) as [rs|x] eqn:Hrs.
  - destruct (classify_outcome rs) as (o & [[text ->]|(x & -> & Hx)] & Hrun).
    + eexists. left. exists text.
      apply (runs_analyze_ok _ _ _ _ _ _ Hrs (Hrun document_id)).
    + eexists. right; left. exists (exc_str x).
      apply (runs_analyze_raise _ _ _ _ _ _ Hrs Hx (Hrun document_id)).
  - exists []. destruct (is_Exception x) eqn:Hx.
    + right; left. exists (exc_str x). now apply runs_analyze_service_error.
    + right; right. exists x. repeat split; auto.
      now apply runs_analyze_service_interrupt.
Qed.

(** X2: the whole behaviour on a response whose items are tagged as the SDK
    tags them.  The analysis function ends and logs as
    [analysis_of_response] says of the service's answer: an exception of the
    call is raised on when it is no [Exception] and turned into the failure
    payload otherwise; for a result set, the records of the items up to the
    first the loop cannot process are logged, then comes either the failure
    payload of that item's exception (the TypeError of json.dumps on its
    warnings, the AttributeError of [None.code]), or the failure payload of
    the unbound variable when no PII result was seen, or the last redacted
    text.  On a blob that decodes the handler logs its starting line and
    these records; when the analysis returns it sets the output binding to the
    value and logs its closing line, when the analysis raises it raises too
    and leaves the output binding alone. *)
Theorem handler_and_analysis_specification
    (env : environment) (documents : list string) (document_id : string)
    (w : world) :
  tagged_response (text_analytics_client env documents) = true ->
  analyze_pii_phi env documents document_id w
  = (fst (analysis_of_response document_id (text_analytics_client env documents)),
     emit w (snd (analysis_of_response document_id
                    (text_analytics_client env documents))))
  /\ (forall (myblob : InputStream) (text : string),
        bytes_decode (blob_content myblob) = Ok text ->
        documents = [text] ->
        analyze_sensitive_data env myblob w
        = handler_result env myblob w
            (analysis_of_response (uuid4 env) (text_analytics_client env [text]))).
Proof.
  intros Ht. split; [now apply analysis_trace|].
  intros myblob text Hd ->.
  pose proof (analysis_trace env [text] (uuid4 env) Ht) as Hrun.
  unfold handler_result.
  destruct (fst (analysis_of_response (uuid4 env) (text_analytics_client env [text])))
    as [value|x].
  - apply (handler_completes env myblob text _ _ Hd Hrun).
  - apply (handler_interrupted env myblob text _ _ Hd Hrun).
Qed.

Lemma handler_and_analysis_specification_witness :
  analyze_pii_phi
    (Sample.responding [[Sample.healthcare; MoreSamples.bare_error]; [Sample.pii]])
    ["hi"] "doc-1" start
  = (Ok (failure_payload "'NoneType' object has no attribute 'code'"),
     emit start
       [ phi_log_record "doc-1" Sample.healthcare;
         LogRecord ERROR
           "Error analyzing document: 'NoneType' object has no attribute 'code'" ])
  /\ analyze_sensitive_data
       (Sample.responding [[Sample.healthcare; MoreSamples.bare_error]; [Sample.pii]])
       Sample.hello start
     = (Ok tt,
        World [ starting_line (Sample.responding []) Sample.hello;
                phi_log_record Sample.correlation_id Sample.healthcare;
                LogRecord ERROR
                  "Error analyzing document: 'NoneType' object has no attribute 'code'";
                completed_line (Sample.responding []) Sample.hello ]
              (Some (failure_payload "'NoneType' object has no attribute 'code'"))).
Proof.
  pose proof (handler_and_analysis_specification
                (Sample.responding
                   [[Sample.healthcare; MoreSamples.bare_error]; [Sample.pii]])
                ["hi"] "doc-1" start eq_refl) as [H1 _].
  pose proof (handler_and_analysis_specification
                (Sample.responding
                   [[Sample.healthcare; MoreSamples.bare_error]; [Sample.pii]])
                ["hi"] Sample.correlation_id start eq_refl) as [_ H2].
  split; [exact H1 | exact (H2 Sample.hello "hi" eq_refl eq_refl)].
Defined.

(** X3: the handler raises in two cases only: when the blob is not valid
    UTF-8, and when the service call raises what is no [Exception]. *)
Theorem handler_raises_in_two_cases_only
    (env : environment) (myblob : InputStream) (w : world) :
  (exists e, fst (analyze_sensitive_data env myblob w) = Raise e)
  <-> ((exists e, bytes_decode (blob_content myblob) = Raise e)
       \/ (exists text x,
             bytes_decode (blob_content myblob) = Ok text
             /\ text_analytics_client env [text] = Raise x
             /\ is_Exception x = false)).
Proof.
  split.
  - intros [e He]. destruct (bytes_decode (blob_content myblob)) as [text|x] eqn:Hd.
    + right. exists text.
      destruct (analysis_outcome env [text])
        as (o & [[value ->]|(x & -> & Hx & Hnot)] & Hrun).
      * destruct (Hrun (uuid4 env)) as [records Hr].
        rewrite (handler_completes env myblob text _ _ Hd Hr) in He. discriminate.
      * now exists x.
    + left. now exists x.
  - intros [[e Hd]|(text & x & Hd & Hx & Hnot)].
    + exists e.
      unfold analyze_sensitive_data, bind, logging_info, lift. now rewrite Hd.
    + exists x.
      now rewrite (handler_interrupted env myblob text x []
                     Hd (runs_analyze_service_interrupt _ _ _ _ Hx Hnot)).
Qed.

(** ** What the loop does with the items *)

(** X4: only the order of the items counts, not how the response groups
    them: two responses with the same flattened sequence are classified
    alike. *)
Theorem classification_ignores_grouping
    (document_id : string) (rs rs' : list (list result)) (w : world) :
  concat rs = concat rs' ->
  classify_results document_id rs w = classify_results document_id rs' w.
Proof.
  intros H. rewrite !classify_results_flat. unfold bind. now rewrite H.
Qed.

Lemma classification_ignores_grouping_witness :
  classify_results "doc-1" [[Sample.pii; Sample.healthcare]; []] start
  = classify_results "doc-1" [[Sample.pii]; [Sample.healthcare]] start.
Proof.
  apply (classification_ignores_grouping "doc-1"
           [[Sample.pii; Sample.healthcare]; []]
           [[Sample.pii]; [Sample.healthcare]] start).
  reflexivity.
Defined.

Lemma process_unrecognized_item document_id v r w :
  unrecognized r = true -> process_result document_id v r w = (Ok v, w).
Proof.
  destruct r as [| |k [|] error]; try discriminate. simpl. intros H.
  apply andb_true_iff in H. destruct H as [H1 H2].
  apply negb_true_iff, String.eqb_neq in H1, H2.
  rewrite (process_unrecognized document_id v k error H1 H2).
  now rewrite emit_nil.
Qed.

Lemma loop_skips_unrecognized document_id (items : list result) :
  forall v w,
    for_each (process_result document_id) items v w
    = for_each (process_result document_id)
        (filter (fun r => negb (unrecognized r)) items) v w.
Proof.
  induction items as [|r items IH]; intros v w; [reflexivity|].
  simpl filter. destruct (unrecognized r) eqn:Hr; simpl negb; cbv iota.
  - simpl for_each. unfold bind.
    rewrite (process_unrecognized_item document_id v r w Hr). apply IH.
  - simpl for_each. unfold bind.
    destruct (process_result document_id v r w) as [[v'|x] w']; [apply IH | reflexivity].
Qed.

(** X5: items of a kind the loop does not know and that signal no error are
    passed over in silence: with or without them the classification returns
    and logs the same. *)
Theorem unrecognized_items_are_skipped
    (document_id : string) (rs : list (list result)) (w : world) :
  classify_results document_id
    (map (filter (fun r => negb (unrecognized r))) rs) w
  = classify_results document_id rs w.
Proof.
  rewrite !classify_results_flat. unfold bind.
  rewrite concat_filter_map. now rewrite <- loop_skips_unrecognized.
Qed.

Lemma in_take_while {A} (p : A -> bool) (x : A) (l : list A) :
  In x (take_while p l) -> In x l /\ p x = true.
Proof.
  induction l as [|y l IH]; simpl; [contradiction|].
  destruct (p y) eqn:Hy; [|contradiction].
  intros [->|H]; [auto | destruct (IH H); auto].
Qed.

(** X6: every record the classification logs stems from one item of the
    response: an INFO record is the PII record of a PII result or the PHI
    record of a healthcare result, an ERROR record is the error line of an
    item of another kind whose [is_error] is true.  No error line is logged
    for a PII or healthcare result, whatever its [is_error]. *)
Theorem every_record_stems_from_an_item
    (document_id : string) (rs : list (list result)) (w : world)
    (record : log_record) :
  In record (emitted (classify_results document_id rs) w) ->
  exists item,
    In item (concat rs)
    /\ ((levelname record = INFO
         /\ kind item = "PiiEntityRecognition"
         /\ (exists text entities warnings e,
               item = RecognizePiiEntitiesResult text entities warnings e)
         /\ record = pii_log_record document_id item)
        \/ (levelname record = INFO
            /\ kind item = "Healthcare"
            /\ (exists entities relations warnings e,
                  item = AnalyzeHealthcareEntitiesResult entities relations warnings e)
            /\ record = phi_log_record document_id item)
        \/ (levelname record = ERROR
            /\ kind item <> "PiiEntityRecognition"
            /\ kind item <> "Healthcare"
            /\ (exists error,
                  item = OtherResult (kind item) true (Some error)
                  /\ record = error_log_record error))).
Proof.
  intros Hin.
  destruct (classify_outcome rs) as (o & _ & Hrun).
  destruct (runs_emitted _ _ _ w (Hrun document_id)) as [_ He].
  rewrite He in Hin. apply in_flat_map in Hin.
  destruct Hin as (item & Hitem & Hrec).
  apply in_take_while in Hitem. destruct Hitem as [Hitem Hp].
  exists item. split; [exact Hitem|].
  destruct item as [text entities warnings e|entities rels warnings e|k e error].
  - left. destruct Hrec as [<-|[]]. repeat split; eauto.
  - right; left. destruct Hrec as [<-|[]]. repeat split; eauto.
  - right; right. simpl in Hp.
    apply andb_true_iff in Hp. destruct Hp as [Hk _].
    apply andb_true_iff in Hk. destruct Hk as [Hk1 Hk2].
    apply negb_true_iff, String.eqb_neq in Hk1, Hk2.
    destruct e; [|contradiction]. destruct error as [error|]; [|contradiction].
    destruct Hrec as [<-|[]]. simpl kind. repeat split; eauto.
Qed.

Lemma every_record_stems_from_an_item_witness :
  exists item,
    In item (concat [[Sample.pii]; [Sample.document_error]])
    /\ ((levelname (error_log_record Sample.invalid_document) = INFO
         /\ kind item = "PiiEntityRecognition"
         /\ (exists text entities warnings e,
               item = RecognizePiiEntitiesResult text entities warnings e)
         /\ error_log_record Sample.invalid_document = pii_log_record "doc-1" item)
        \/ (levelname (error_log_record Sample.invalid_document) = INFO
            /\ kind item = "Healthcare"
            /\ (exists entities relations warnings e,
                  item = AnalyzeHealthcareEntitiesResult entities relations warnings e)
            /\ error_log_record Sample.invalid_document = phi_log_record "doc-1" item)
        \/ (levelname (error_log_record Sample.invalid_document) = ERROR
            /\ kind item <> "PiiEntityRecognition"
            /\ kind item <> "Healthcare"
            /\ (exists error,
                  item = OtherResult (kind item) true (Some error)
                  /\ error_log_record Sample.invalid_document = error_log_record error))).
Proof.
  apply (every_record_stems_from_an_item "doc-1"
           [[Sample.pii]; [Sample.document_error]] start
           (error_log_record Sample.invalid_document)).
  vm_compute. right. left. reflexivity.
Defined.

(** X7: the document id shows in the records only: the value the analysis
    function returns is the same for any two ids, in any two worlds. *)
Theorem returned_value_ignores_the_document_id
    (env : environment) (documents : list string)
    (document_id document_id' : string) (w w' : world) :
  fst (analyze_pii_phi env documents document_id w)
  = fst (analyze_pii_phi env documents document_id' w').
Proof.
  destruct (analysis_outcome env documents) as (o & _ & Hrun).
  destruct (Hrun document_id) as [records H].
  destruct (Hrun document_id') as [records' H'].
  now rewrite (H w), (H' w').
Qed.

(** ** The handler and the emitter *)

Lemma utf8_decode_ascii (bs : list byte) :
  forall pos, ascii_only bs = true -> utf8_decode pos bs = Decoded (map Byte.to_N bs).
Proof.
  induction bs as [|b bs IH]; intros pos H; [reflexivity|].
  simpl in H. apply andb_true_iff in H. destruct H as [Hb Hbs].
  cbn [utf8_decode map]. rewrite Hb.
  now rewrite (IH (pos + 1) Hbs).
Qed.

(** X8: a blob of ASCII bytes always decodes, to the text with those very
    bytes.  On it, unless the service call raises what is no [Exception], the
    handler raises nothing and sets the output binding to what the analysis
    function returns for that text as the single document. *)
Theorem ascii_blob_is_always_processed
    (env : environment) (myblob : InputStream) (w : world) :
  ascii_only (blob_content myblob) = true ->
  (forall x,
     text_analytics_client env [string_of_list_byte (blob_content myblob)] = Raise x ->
     is_Exception x = true) ->
  bytes_decode (blob_content myblob) = Ok (string_of_list_byte (blob_content myblob))
  /\ fst (analyze_sensitive_data env myblob w) = Ok tt
  /\ exists value,
       fst (analyze_pii_phi env [string_of_list_byte (blob_content myblob)]
              (uuid4 env) w) = Ok value
       /\ outputblob (snd (analyze_sensitive_data env myblob w)) = Some value.
Proof.
  intros H Hservice.
  assert (Hd : bytes_decode (blob_content myblob)
               = Ok (string_of_list_byte (blob_content myblob))).
  { unfold bytes_decode. now rewrite (utf8_decode_ascii _ 0 H). }
  split; [exact Hd|].
  destruct (analysis_outcome env [string_of_list_byte (blob_content myblob)])
    as (o & [[value ->]|(x & -> & Hx & Hnot)] & Hrun).
  - destruct (Hrun (uuid4 env)) as [records Hr].
    rewrite (handler_completes env myblob _ _ _ Hd Hr).
    split; [reflexivity|]. exists value. split; [now rewrite (Hr w) | reflexivity].
  - rewrite (Hservice x Hx) in Hnot. discriminate.
Qed.

Lemma ascii_blob_is_always_processed_witness :
  bytes_decode (blob_content Sample.hello) = Ok "hi"
  /\ fst (analyze_sensitive_data MoreSamples.rejecting Sample.hello start) = Ok tt
  /\ exists value,
       fst (analyze_pii_phi MoreSamples.rejecting ["hi"]
              (uuid4 MoreSamples.rejecting) start) = Ok value
       /\ outputblob (snd (analyze_sensitive_data MoreSamples.rejecting
                             Sample.hello start))
          = Some value.
Proof.
  apply (ascii_blob_is_always_processed MoreSamples.rejecting Sample.hello start).
  - reflexivity.
  - intros x Hx. inversion Hx. reflexivity.
Defined.

(** X9: the emitter is all or nothing.  When the dimensions and the errors
    hold JSON values only it logs exactly one INFO record, the serialized
    entry; otherwise it logs nothing and raises the TypeError of json.dumps
    for the first offending object, those of the dimensions coming before
    those of the errors. *)
Theorem emitter_logs_one_record_or_raises
    (message : string) (custom_dimensions errors : pyval) :
  (first_object custom_dimensions = None
   /\ first_object errors = None
   /\ runs (log_structured_data message custom_dimensions errors) (Ok tt)
           [LogRecord INFO (json_encode (log_entry message custom_dimensions errors))])
  \/ (exists cls,
        (first_object custom_dimensions = Some cls
         \/ (first_object custom_dimensions = None /\ first_object errors = Some cls))
        /\ runs (log_structured_data message custom_dimensions errors)
                (Raise (TypeError_not_serializable cls)) []).
Proof.
  assert (H : first_object (log_entry message custom_dimensions errors)
              = match first_object custom_dimensions with
                | Some cls => Some cls
                | None => first_object errors
                end).
  { simpl. destruct (first_object custom_dimensions); [reflexivity|].
    now destruct (first_object errors). }
  destruct (first_object custom_dimensions) as [cls|] eqn:Ec.
  - right. exists cls. split; [now left|]. now apply log_structured_data_raise.
  - destruct (first_object errors) as [cls|] eqn:Ee.
    + right. exists cls. split; [now right|]. now apply log_structured_data_raise.
    + left. repeat split. now apply log_structured_data_ok.
Qed.
